(** * ocnotify: the progress notifier

    A shallow embedding of [python/progress_notifier/__init__.py]: the
    configuration lookup [_env], the [ProgressNotifier] object with its
    lazy delivery self-test, the dispatcher [_send_message] with its CLI
    and HTTP paths, and the two entry points [send_now] and [maybe_send].

    Conventions of the embedding.
    - A Python [str | None] is an [option string]; truthiness ([if x:],
      [not x], [x or y], [x and y]) is written out with [truthy].
    - Timestamps are the values of [time.time()], taken as exact rationals
      ([Q]); the intervals are Python [int]s ([Z]).  The value read from
      the clock by a call is an argument of that call.
    - A method is a computation over the object state and the trace of
      what has happened so far; it returns normally or raises.  A raise
      keeps the state reached so far, as in Python.
    - The trace records the calls that leave the process ([subprocess.run],
      [urlopen], [print] on stderr) and each entry into the dispatcher
      [_send_message].
    - Everything outside the process is an oracle of a [world]: what
      [subprocess.run] and [urlopen] answer (a value or an exception) and
      what the file system says.  An oracle sees the whole trace, so its
      answers may depend on the history in any way.  The constructor
      [urllib.request.Request] is an oracle too, [request_error]: it
      raises [ValueError] for a URL without a scheme, and which URLs
      those are is the library's business.
    - What is left is total: [print] on stderr, [json.dumps], the string
      operations and [shutil.which] return. *)

From Stdlib Require Import ZArith QArith Lqa Ascii String List Bool Lia.
From stdpp Require Import base option list strings gmap.

Open Scope string_scope.
Open Scope list_scope.

(** ** Python values *)

(** [bool(x)] for [x : str | None]. *)
Definition truthy (x : option string) : bool :=
  match x with
  | Some s => negb (String.eqb s "")
  | None => false
  end.

(** The string held by [x] on a path where [x] is known to be truthy. *)
Definition str (x : option string) : string :=
  match x with
  | Some s => s
  | None => ""
  end.

(** [x or y]. *)
Definition py_or (x y : option string) : option string :=
  if truthy x then x else y.

(** [needle in hay] on strings. *)
Definition str_in (needle hay : string) : bool :=
  match String.index 0 needle hay with
  | Some _ => true
  | None => false
  end.

(** A byte that continues a character of the UTF-8 text: [10xxxxxx]. *)
Definition is_continuation (c : Ascii.ascii) : bool :=
  match c with
  | Ascii.Ascii _ _ _ _ _ _ b6 b7 => b7 && negb b6
  end.

(** [s[:k]]: the first [k] characters of [s].  A string is held as its
    UTF-8 bytes, and a character is a byte that does not continue one,
    with the continuation bytes after it. *)
Fixpoint str_take (k : nat) (s : string) : string :=
  match s with
  | EmptyString => EmptyString
  | String c rest =>
      if is_continuation c then String c (str_take k rest)
      else match k with
           | O => EmptyString
           | S k' => String c (str_take k' rest)
           end
  end.

(** [s.rstrip('/')], on the list of characters. *)
Fixpoint rstrip_slash_chars (cs : list Ascii.ascii) : list Ascii.ascii :=
  match cs with
  | [] => []
  | c :: rest =>
      match rstrip_slash_chars rest with
      | [] => if Ascii.eqb c "/"%char then [] else [c]
      | rest' => c :: rest'
      end
  end.

Definition rstrip_slash (s : string) : string :=
  string_of_list_ascii (rstrip_slash_chars (list_ascii_of_string s)).

(** ** The environment: [_env] *)

Module Env.

(** [os.environ]. *)
Abbreviation environ := (gmap string string).

(** [_env(name, default)]: an unset or empty variable is absent. *)
Definition _env (e : environ) (name : string) (default : option string)
  : option string :=
  match e !! name with
  | Some v => if String.eqb v "" then default else Some v
  | None => default
  end.

End Env.
Export Env.

(** ** The notifier object *)

Record ProgressNotifier := mkNotifier {
  interval_sec : Z;
  plot_interval_sec : Z;
  last_sent : Q;
  last_plot_sent : Q;
  channel : option string;
  target : option string;
  gateway_url : option string;
  gateway_token : option string;
  _tested : bool;
  _use_http : bool;
  _cli_available : bool
}.

Definition set_last_sent (t : Q) (n : ProgressNotifier) : ProgressNotifier :=
  mkNotifier (interval_sec n) (plot_interval_sec n) t (last_plot_sent n)
    (channel n) (target n) (gateway_url n) (gateway_token n)
    (_tested n) (_use_http n) (_cli_available n).

Definition set_last_plot_sent (t : Q) (n : ProgressNotifier) : ProgressNotifier :=
  mkNotifier (interval_sec n) (plot_interval_sec n) (last_sent n) t
    (channel n) (target n) (gateway_url n) (gateway_token n)
    (_tested n) (_use_http n) (_cli_available n).

Definition set_tested (b : bool) (n : ProgressNotifier) : ProgressNotifier :=
  mkNotifier (interval_sec n) (plot_interval_sec n) (last_sent n) (last_plot_sent n)
    (channel n) (target n) (gateway_url n) (gateway_token n)
    b (_use_http n) (_cli_available n).

Definition set_use_http (b : bool) (n : ProgressNotifier) : ProgressNotifier :=
  mkNotifier (interval_sec n) (plot_interval_sec n) (last_sent n) (last_plot_sent n)
    (channel n) (target n) (gateway_url n) (gateway_token n)
    (_tested n) b (_cli_available n).

(** The guard of [send_now] and [maybe_send] is
    [not self.channel or not self.target]; a notifier that passes it is
    configured. *)
Definition configured (n : ProgressNotifier) : bool :=
  truthy (channel n) && truthy (target n).

(** ** Exceptions, external calls and the trace *)

(** An instance of a subclass of Python's [Exception]. *)
Inductive exception := Exception (what : string).

Inductive outcome (A : Type) :=
| Returned (a : A)
| Raised (e : exception).
Arguments Returned {A} a.
Arguments Raised {A} e.

(** [subprocess.CompletedProcess], with the captured text. *)
Record CompletedProcess := mkCompleted {
  returncode : Z;
  stdout : string;
  stderr : string
}.

(** [urllib.request.Request(url, data=json.dumps(payload).encode(),
    headers=...)]; the payload is kept as the dict it was built from, in
    insertion order. *)
Record Request := mkRequest {
  req_url : string;
  req_payload : list (string * string);
  req_headers : list (string * string)
}.

(** The diagnostics [_selftest] prints on stderr. *)
Inductive diagnostic :=
| WarnNoConfig
| WarnUnknownChannel (chan : string)
| WarnDryRunFailed (output : string)
| WarnCliTestFailed (exc : exception)
| InfoHttpFallback (url : string)
| WarnSilent.

Inductive event :=
| Dispatch (args : list string) (media_path : option string)
    (* entry into [_send_message] *)
| Probe (args : list string)
    (* [subprocess.run(args, capture_output=True, text=True, timeout=10)] *)
| Diag (d : diagnostic)
    (* [print(..., file=sys.stderr)] *)
| Cli (args : list string)
    (* [subprocess.run(args, check=False)] *)
| Post (req : Request).
    (* [urllib.request.urlopen(req, timeout=15)] *)

Abbreviation trace := (list event).

Record world := mkWorld {
  shutil_which : string -> option string;
  request_error : Request -> option exception;
  subprocess_run : trace -> list string -> outcome CompletedProcess;
  urlopen : trace -> Request -> outcome unit;
  os_path_isfile : trace -> string -> bool;
  os_path_abspath : string -> string
}.

(** ** Computations *)

Definition state : Type := ProgressNotifier * trace.

Definition M (A : Type) : Type := state -> outcome A * state.

Definition ret {A} (a : A) : M A := fun st => (Returned a, st).

Definition bind {A B} (m : M A) (k : A -> M B) : M B :=
  fun st =>
    match m st with
    | (Returned a, st') => k a st'
    | (Raised e, st') => (Raised e, st')
    end.

Declare Scope py_scope.
Delimit Scope py_scope with py.
Notation "x <- m ;; k" := (bind m (fun x => k))
  (at level 100, m at next level, right associativity) : py_scope.
Notation "m ;;; k" := (bind m (fun _ => k))
  (at level 100, right associativity) : py_scope.
Open Scope py_scope.

(** [self]. *)
Definition self : M ProgressNotifier := fun st => (Returned (fst st), st).

(** [self.f = v], as an update of the object. *)
Definition assign (upd : ProgressNotifier -> ProgressNotifier) : M unit :=
  fun st => (Returned tt, (upd (fst st), snd st)).

Definition emit (e : event) : M unit :=
  fun st => (Returned tt, (fst st, snd st ++ [e])).

(** The history, to put a question to the world. *)
Definition history : M trace := fun st => (Returned (snd st), st).

(** [try: body except Exception as exc: handler(exc)]. *)
Definition try_except {A} (body : M A) (handler : exception -> M A) : M A :=
  fun st =>
    match body st with
    | (Returned a, st') => (Returned a, st')
    | (Raised e, st') => handler e st'
    end.

Definition print_stderr (d : diagnostic) : M unit := emit (Diag d).

(** ** The notifier's methods *)

(** [now - last >= interval]. *)
Definition elapsed (now last : Q) (interval : Z) : bool :=
  Qle_bool (inject_Z interval) (now - last).

(** The message the HTTP path recovers from the argument vector:
    the element after the first ["--message"] that has a successor. *)
Fixpoint extract_message (args : list string) : string :=
  match args with
  | [] => ""
  | a :: rest =>
      if String.eqb a "--message" then
        match rest with
        | m :: _ => m
        | [] => extract_message rest
        end
      else extract_message rest
  end.

(** The argument vector of a text send and of a send with media. *)
Definition cmd_text (n : ProgressNotifier) (message : string) : list string :=
  ["openclaw"; "message"; "send";
   "--channel"; str (channel n);
   "--target"; str (target n);
   "--message"; message].

Definition cmd_media (n : ProgressNotifier) (message : string)
    (plot_path : option string) : list string :=
  ["openclaw"; "message"; "send";
   "--channel"; str (channel n);
   "--target"; str (target n);
   "--message"; message;
   "--media"; str plot_path].

Definition probe_args (n : ProgressNotifier) : list string :=
  ["openclaw"; "message"; "send"; "--channel"; str (channel n);
   "--target"; str (target n);
   "--message"; "🔔 Progress notifier connected."; "--dry-run"].

Section Notifier.

Variable w : world.

(** [ProgressNotifier(interval_sec, plot_interval_sec)] under the
    environment [e]. *)
Definition __init__ (e : environ) (interval : Z) (plot_interval : option Z)
  : ProgressNotifier :=
  {| interval_sec := interval;
     plot_interval_sec :=
       match plot_interval with Some p => p | None => interval end;
     last_sent := 0;
     last_plot_sent := 0;
     channel := py_or (_env e "OPENCLAW_PROGRESS_CHANNEL" None)
                      (_env e "OPENCLAW_DEFAULT_DM_CHANNEL" None);
     target := py_or (_env e "OPENCLAW_PROGRESS_TARGET" None)
                     (_env e "OPENCLAW_DEFAULT_DM_TARGET" None);
     gateway_url := _env e "OPENCLAW_GATEWAY_URL" None;
     gateway_token := _env e "OPENCLAW_GATEWAY_TOKEN" None;
     _tested := false;
     _use_http := false;
     _cli_available :=
       match shutil_which w "openclaw" with Some _ => true | None => false end |}.

(** [subprocess.run(args, ...)]: the call is recorded as [ev args] and
    answered by the world. *)
Definition run_subprocess (ev : list string -> event) (args : list string)
  : M CompletedProcess :=
  fun st => (subprocess_run w (snd st) args, (fst st, snd st ++ [ev args])).

(** [urllib.request.urlopen(req, timeout=15)]; the response is dropped. *)
Definition open_url (req : Request) : M unit :=
  fun st => (urlopen w (snd st) req, (fst st, snd st ++ [Post req])).

(** The [if self._cli_available:] block of [_selftest].  The result is
    [true] when the method returns from inside the block ([return  # CLI
    works]) and [false] when control falls out of it. *)
Definition _selftest_cli : M bool :=
  n <- self ;;
  returned <-
    try_except
      (r <- run_subprocess Probe (probe_args n) ;;
       if (returncode r =? 0)%Z then ret true
       else
         (if str_in "Unknown channel" (stderr r +:+ stdout r)
          then print_stderr (WarnUnknownChannel (str (channel n)))
          else print_stderr
                 (WarnDryRunFailed
                    (str_take 200
                       (if String.eqb (stderr r) "" then stdout r else stderr r)))) ;;;
         ret false)
      (fun exc => print_stderr (WarnCliTestFailed exc) ;;; ret false) ;;
  if returned then ret true
  else assign (set_use_http true) ;;; ret false.

Definition _selftest : M unit :=
  n <- self ;;
  if _tested n then ret tt
  else
    assign (set_tested true) ;;;
    if negb (truthy (channel n)) || negb (truthy (target n)) then
      print_stderr WarnNoConfig
    else
      returned <- (if _cli_available n then _selftest_cli else ret false) ;;
      if returned then ret tt
      else
        (if negb (_cli_available n) then assign (set_use_http true) else ret tt) ;;;
        n' <- self ;;
        if _use_http n' then
          if truthy (gateway_url n') && truthy (gateway_token n')
          then print_stderr (InfoHttpFallback (str (gateway_url n')))
          else print_stderr WarnSilent
        else ret tt.

(** The request [_send_http] builds: URL, payload and headers. *)
Definition _send_http_request (n : ProgressNotifier) (tr : trace)
    (message : string) (media_path : option string) : Request :=
  let url := rstrip_slash (str (gateway_url n)) +:+ "/api/v1/message/send" in
  let payload :=
    [("channel", str (channel n)); ("target", str (target n));
     ("message", message)]
    ++ (if truthy media_path && os_path_isfile w tr (str media_path)
        then [("mediaPath", os_path_abspath w (str media_path))]
        else []) in
  {| req_url := url;
     req_payload := payload;
     req_headers :=
       [("Content-Type", "application/json");
        ("Authorization", "Bearer " +:+ str (gateway_token n))] |}.

(** [urllib.request.Request(url, data=data, headers=...)]: the
    constructor returns, or raises what the world says it raises. *)
Definition new_request (req : Request) : M unit :=
  fun st =>
    (match request_error w req with
     | Some exc => Raised exc
     | None => Returned tt
     end, st).

Definition _send_http (message : string) (media_path : option string) : M unit :=
  n <- self ;;
  if negb (truthy (gateway_url n)) || negb (truthy (gateway_token n)) then ret tt
  else
    tr <- history ;;
    let req := _send_http_request n tr message media_path in
    new_request req ;;;
    try_except (open_url req) (fun _ => ret tt).

Definition _send_message (args : list string) (media_path : option string)
  : M unit :=
  emit (Dispatch args media_path) ;;;
  _selftest ;;;
  n <- self ;;
  if _use_http n then _send_http (extract_message args) media_path
  else
    try_except (run_subprocess Cli args ;;; ret tt) (fun _ => ret tt).

Definition send_now (message : string) (plot_path : option string) : M unit :=
  n <- self ;;
  if negb (truthy (channel n)) || negb (truthy (target n)) then ret tt
  else
    let cmd :=
      cmd_text n message
      ++ (if truthy plot_path then ["--media"; str plot_path] else []) in
    _send_message cmd plot_path.

(** [maybe_send(message, plot_path)], where [now] is what [time.time()]
    returns in this call. *)
Definition maybe_send (now : Q) (message : string) (plot_path : option string)
  : M unit :=
  n <- self ;;
  if negb (truthy (channel n)) || negb (truthy (target n)) then ret tt
  else
    let send_text := elapsed now (last_sent n) (interval_sec n) in
    let send_plot :=
      truthy plot_path && elapsed now (last_plot_sent n) (plot_interval_sec n) in
    if send_text && negb send_plot then
      assign (set_last_sent now) ;;;
      _send_message (cmd_text n message) None
    else if send_text && send_plot then
      assign (set_last_sent now) ;;;
      assign (set_last_plot_sent now) ;;;
      _send_message (cmd_media n message plot_path) plot_path
    else if send_plot then
      assign (set_last_plot_sent now) ;;;
      _send_message (cmd_media n message plot_path) plot_path
    else ret tt.

End Notifier.

(** ** Sequences of calls *)

Inductive call :=
| SendNow (message : string) (plot_path : option string)
| MaybeSend (now : Q) (message : string) (plot_path : option string).

Definition perform (w : world) (c : call) : M unit :=
  match c with
  | SendNow message plot_path => send_now w message plot_path
  | MaybeSend now message plot_path => maybe_send w now message plot_path
  end.

(** The calls of a caller, one after the other; a raise ends the caller. *)
Fixpoint perform_all (w : world) (cs : list call) : M unit :=
  match cs with
  | [] => ret tt
  | c :: rest => perform w c ;;; perform_all w rest
  end.

(** The calls of a caller that goes on after an exception: every call is
    made, on the notifier and the trace the one before left. *)
Fixpoint attempt_all (w : world) (cs : list call) (st : state) : state :=
  match cs with
  | [] => st
  | c :: rest => attempt_all w rest (perform w c st).2
  end.

(** ** Reading a trace *)

Definition is_dispatch (e : event) : bool :=
  match e with Dispatch _ _ => true | _ => false end.

(** An external send: a CLI invocation or an HTTP POST. *)
Definition is_send (e : event) : bool :=
  match e with Cli _ | Post _ => true | _ => false end.

Definition is_probe (e : event) : bool :=
  match e with Probe _ => true | _ => false end.

(** What only [_selftest] does: the dry-run probe and the diagnostics. *)
Definition is_selftest (e : event) : bool :=
  match e with Probe _ | Diag _ => true | _ => false end.

Definition dispatches (tr : trace) : trace := List.filter is_dispatch tr.
Definition sends (tr : trace) : trace := List.filter is_send tr.
Definition probes (tr : trace) : trace := List.filter is_probe tr.
Definition selftest_events (tr : trace) : trace := List.filter is_selftest tr.


Definition some_dispatch (tr : trace) : bool :=
  match dispatches tr with [] => false | _ :: _ => true end.

(** [n'] is [n] except for the delivery flags [_tested] and [_use_http]. *)
Definition delivery_update (n n' : ProgressNotifier) : Prop :=
  n' = set_use_http (_use_http n') (set_tested (_tested n') n).

(** What the gateway is to receive, stated apart from
    [_send_http_request] to compare the code with: a POST to the gateway
    URL without its trailing slashes followed by [/api/v1/message/send],
    with the bearer token, and a body of channel, target and message
    and, for an attachment that is a file on disk, its absolute path. *)
Definition gateway_request (w : world) (n : ProgressNotifier) (tr : trace)
    (message : string) (media_path : option string) : Request :=
  {| req_url := rstrip_slash (str (gateway_url n)) +:+ "/api/v1/message/send";
     req_payload :=
       [("channel", str (channel n)); ("target", str (target n));
        ("message", message)]
       ++ (if truthy media_path && os_path_isfile w tr (str media_path)
           then [("mediaPath", os_path_abspath w (str media_path))]
           else []);
     req_headers :=
       [("Content-Type", "application/json");
        ("Authorization", "Bearer " +:+ str (gateway_token n))] |}.

(** How the dispatcher ends after the self-test, and what it sends, by
    delivery state.  On the CLI path: one CLI invocation, and a normal
    return whatever the invocation does.  On the HTTP path with a gateway
    URL and a token: one POST of the request for the message found in
    the argument vector, and a normal return whatever the POST does; or,
    when the request cannot be built, its exception and no POST.  On the
    HTTP path without URL or token: nothing. *)
Definition delivery (w : world) (n : ProgressNotifier) (tr : trace)
    (args : list string) (media_path : option string)
  : outcome unit * trace :=
  if _use_http n then
    if truthy (gateway_url n) && truthy (gateway_token n) then
      let req := gateway_request w n tr (extract_message args) media_path in
      match request_error w req with
      | Some exc => (Raised exc, [])
      | None => (Returned tt, [Post req])
      end
    else (Returned tt, [])
  else (Returned tt, [Cli args]).

(** A call that started at [tr] ended with [r] after the events [evs]:
    events that send nothing, then what [delivery] says for the notifier
    [n'] it leaves. *)
Definition delivers (w : world) (tr : trace) (args : list string)
    (media_path : option string) (n' : ProgressNotifier)
    (r : outcome unit) (evs : trace) : Prop :=
  exists pre,
    sends pre = []
    /\ evs = pre ++ (delivery w n' (tr ++ pre) args media_path).2
    /\ r = (delivery w n' (tr ++ pre) args media_path).1.

(** ** The self-test and the dispatcher as functions

    [_selftest] never raises, so it is a function from the state to the
    next state and the events added; [_send_message] is that followed by
    [delivery].  The equations [_selftest_eq] and [_send_message_eq] below
    prove that these functions are what the methods compute. *)

(** The diagnostic after a dry-run that returned a non-zero status. *)
Definition probe_diag (n : ProgressNotifier) (r : CompletedProcess) : diagnostic :=
  if str_in "Unknown channel" (stderr r +:+ stdout r)
  then WarnUnknownChannel (str (channel n))
  else WarnDryRunFailed
         (str_take 200 (if String.eqb (stderr r) "" then stdout r else stderr r)).

(** The diagnostic of the [if self._use_http:] block. *)
Definition http_diag (n : ProgressNotifier) : diagnostic :=
  if truthy (gateway_url n) && truthy (gateway_token n)
  then InfoHttpFallback (str (gateway_url n))
  else WarnSilent.

(** The notifier after [_selftest] and the events it adds to [tr]. *)
Definition selftest_outcome (w : world) (n : ProgressNotifier) (tr : trace)
  : ProgressNotifier * trace :=
  if _tested n then (n, [])
  else if negb (truthy (channel n)) || negb (truthy (target n)) then
    (set_tested true n, [Diag WarnNoConfig])
  else if _cli_available n then
    match subprocess_run w tr (probe_args n) with
    | Returned r =>
        if (returncode r =? 0)%Z then
          (set_tested true n, [Probe (probe_args n)])
        else
          (set_use_http true (set_tested true n),
           [Probe (probe_args n); Diag (probe_diag n r); Diag (http_diag n)])
    | Raised exc =>
        (set_use_http true (set_tested true n),
         [Probe (probe_args n); Diag (WarnCliTestFailed exc); Diag (http_diag n)])
    end
  else (set_use_http true (set_tested true n), [Diag (http_diag n)]).

(** One pass through the dispatcher, as seen from outside: started at
    [tr] on [n], it ends with [r] and leaves [n'], adding [evs]. *)
Definition one_dispatch (w : world) (tr : trace) (args : list string)
    (media : option string) (n : ProgressNotifier) (r : outcome unit)
    (n' : ProgressNotifier) (evs : trace) : Prop :=
  delivery_update n n'
  /\ _tested n' = true
  /\ dispatches evs = [Dispatch args media]
  /\ (length (sends evs) <= 1)%nat
  /\ (length (probes evs) <= 1)%nat
  /\ delivers w tr args media n' r evs
  /\ (_tested n = true -> n' = n /\ selftest_events evs = []).

(** The same notifier with other throttle timestamps. *)
Definition retime (t1 t2 : Q) (n : ProgressNotifier) : ProgressNotifier :=
  set_last_plot_sent t2 (set_last_sent t1 n).


(** The number of calls of [cs] in which [_tested] goes from [False] to
    [True].  The body of [_selftest] below its guard runs exactly when it
    does: the guard lets it through only while [_tested] is [False], its
    first statement sets [_tested], and a call enters [_selftest] at most
    once. *)
Fixpoint selftest_runs (w : world) (cs : list call) (st : state) : nat :=
  match cs with
  | [] => 0
  | c :: rest =>
      let st' := (perform w c st).2 in
      (if negb (_tested st.1) && _tested st'.1 then 1 else 0)
      + selftest_runs w rest st'
  end.

(** ** The process wrapper *)

Module Wrap.

(** Modelled from the spec: the outcomes of the wrapped command that
    [wrap] tells apart, [wrap] itself not being in the sources at hand. *)
Inductive termination :=
| Exited (code : Z)
| NotFound
| Signaled (signum : Z).

(** Modelled from the spec: the status mapping of [wrap], which is not in
    the sources at hand (only its tests are).  Normal exit gives that exit
    code, a command that is not found gives 127, termination by signal N
    gives 128+N. *)
Definition exit_status (t : termination) : Z :=
  match t with
  | Exited code => code
  | NotFound => 127
  | Signaled signum => 128 + signum
  end.

Section Wrapper.

Variable w : world.

(** How the command [argv] ends once spawned and waited for. *)
Variable child : list string -> termination.

(** The text of the completion message, from the optional label and the
    resolved status. *)
Variable describe : option string -> Z -> string.

(** Modelled from the spec: [wrap(argv, label)], which is not in the
    sources at hand.  An empty command vector returns status 1 at once;
    otherwise the command is spawned and waited for, its outcome is mapped
    by [exit_status], one notification goes out through [send_now], and
    the status is returned.  The wrapper never raises, whatever the
    notification does: an exception of [send_now] stops there. *)
Definition wrap (argv : list string) (label : option string) : M Z :=
  match argv with
  | [] => ret 1%Z
  | _ :: _ =>
      let status := exit_status (child argv) in
      try_except (send_now w (describe label status) None) (fun _ => ret tt) ;;;
      ret status
  end.

End Wrapper.

End Wrap.

(** ** The channel classification *)

Module Formatter.

(** Modelled from the spec: the three styles [_detect_channel_type]
    returns, the function itself not being in the sources at hand. *)
Inductive channel_type := rich | table | plain.

(** Modelled from the spec: the static classification table behind
    [_detect_channel_type], which is not in the sources at hand. *)
Definition channel_styles : gmap string channel_type :=
  list_to_map
    [("telegram", table);
     ("discord", rich); ("slack", rich); ("whatsapp", rich);
     ("signal", plain); ("imessage", plain)].

(** Modelled from the spec: [_detect_channel_type(channel)], which is not
    in the sources at hand (only its tests are).  A channel of the table
    gets its style; an unknown or absent channel gets the rich style. *)
Definition _detect_channel_type (channel : option string) : channel_type :=
  match channel with
  | Some c => default rich (channel_styles !! c)
  | None => rich
  end.

End Formatter.

(** ** Sample inputs *)

Module Sample.

(** The environment of the test suite. *)
Definition environ_discord : environ :=
  <["OPENCLAW_PROGRESS_CHANNEL" := "discord"]>
    (<["OPENCLAW_PROGRESS_TARGET" := "channel:123"]> ∅).

(** The same with the HTTP gateway configured. *)
Definition environ_gateway : environ :=
  <["OPENCLAW_GATEWAY_URL" := "http://192.168.1.94:18789/"]>
    (<["OPENCLAW_GATEWAY_TOKEN" := "secret"]> environ_discord).

(** [openclaw] is installed and every command succeeds. *)
Definition world_cli : world :=
  {| shutil_which := fun _ => Some "/usr/bin/openclaw";
     subprocess_run := fun _ _ => Returned (mkCompleted 0 "" "");
     urlopen := fun _ _ => Returned tt;
     os_path_isfile := fun _ _ => true;
     os_path_abspath := fun p => p;
     request_error := fun _ => None |}.

(** Nothing is installed and every external call raises. *)
Definition world_offline : world :=
  {| shutil_which := fun _ => None;
     subprocess_run := fun _ _ => Raised (Exception "FileNotFoundError");
     urlopen := fun _ _ => Raised (Exception "URLError");
     os_path_isfile := fun _ _ => false;
     os_path_abspath := fun p => p;
     request_error := fun _ => None |}.

(** [openclaw] is installed and every command raises. *)
Definition world_broken_cli : world :=
  {| shutil_which := fun _ => Some "/usr/bin/openclaw";
     subprocess_run := fun _ _ => Raised (Exception "OSError");
     urlopen := fun _ _ => Raised (Exception "URLError");
     os_path_isfile := fun _ _ => true;
     os_path_abspath := fun p => p;
     request_error := fun _ => None |}.

(** The dry-run probe succeeds and every real send raises. *)
Definition world_flaky : world :=
  {| shutil_which := fun _ => Some "/usr/bin/openclaw";
     subprocess_run := fun _ args =>
       if existsb (String.eqb "--dry-run") args
       then Returned (mkCompleted 0 "" "")
       else Raised (Exception "OSError");
     urlopen := fun _ _ => Raised (Exception "URLError");
     os_path_isfile := fun _ _ => true;
     os_path_abspath := fun p => p;
     request_error := fun _ => None |}.

(** A URL has a scheme: it starts with one or more characters other
    than [/] and [:], and then a [:]. *)
Fixpoint has_scheme_from (seen : bool) (s : string) : bool :=
  match s with
  | EmptyString => false
  | String c rest =>
      if Ascii.eqb c ":" then seen
      else if Ascii.eqb c "/" then false
      else has_scheme_from true rest
  end.

(** Nothing is installed, and the request constructor raises
    [ValueError] for a URL without a scheme. *)
Definition world_no_scheme : world :=
  {| shutil_which := fun _ => None;
     subprocess_run := fun _ _ => Raised (Exception "FileNotFoundError");
     urlopen := fun _ _ => Returned tt;
     os_path_isfile := fun _ _ => true;
     os_path_abspath := fun p => p;
     request_error := fun req =>
       if has_scheme_from false (req_url req) then None
       else Some (Exception "ValueError") |}.

(** The environment of the test suite, with a token and a gateway named
    without its scheme. *)
Definition environ_bad_gateway : environ :=
  <["OPENCLAW_GATEWAY_URL" := "gateway.local"]>
    (<["OPENCLAW_GATEWAY_TOKEN" := "tok"]> environ_discord).

Definition plot : option string := Some "/tmp/p.png".

(** [ProgressNotifier(interval_sec=0, plot_interval_sec=9999)]. *)
Definition notifier : ProgressNotifier :=
  __init__ world_cli environ_discord 0 (Some 9999%Z).


(** [ProgressNotifier()] with nothing in the environment. *)
Definition notifier_unset : ProgressNotifier :=
  __init__ world_cli ∅ 300 None.

(** [ProgressNotifier(interval_sec=0)] where nothing is installed and
    the gateway is named without its scheme. *)
Definition notifier_bad_gateway : ProgressNotifier :=
  __init__ world_no_scheme environ_bad_gateway 0 None.

(** A notifier that sent its text at 1700000000 and its plot at
    1699990000, with intervals of 300 and 9999 seconds. *)
Definition notifier_mid : ProgressNotifier :=
  set_last_sent 1700000000%Q
    (set_last_plot_sent 1699990000%Q
       (__init__ world_cli environ_discord 300 (Some 9999%Z))).

(** Clock readings. *)
Definition t0 : Q := 1700000000.
Definition t1 : Q := 1700000001.
Definition t100 : Q := 1700000100.
Definition t400 : Q := 1700000400.

Definition child (argv : list string) : Wrap.termination :=
  match argv with
  | "false" :: _ => Wrap.Exited 42
  | "train.py" :: _ => Wrap.Signaled 9
  | "nonexistent_cmd" :: _ => Wrap.NotFound
  | _ => Wrap.Exited 0
  end.

Definition describe (label : option string) (status : Z) : string :=
  (if (status =? 0)%Z then "done: " else "failed: ") +:+ str label.

End Sample.

(** ** The command line: [main] *)

(** [xs.index(x)]; [None] stands for [x not in xs]. *)
Fixpoint list_index (x : string) (xs : list string) : option nat :=
  match xs with
  | [] => None
  | y :: rest =>
      if String.eqb y x then Some 0%nat
      else match list_index x rest with
           | Some i => Some (S i)
           | None => None
           end
  end.

(** How [main] ends: [sys.exit(code)] after a line on stderr, an exception
    of [int] that nothing catches, or the end of its call of [maybe_send]:
    the outcome of that call, a return or an exception that nothing
    catches either, with the notifier and the trace it leaves. *)
Inductive main_result :=
| SysExit (stderr_line : string) (code : Z)
| Uncaught (e : exception)
| Completed (r : outcome unit * state).

Definition usage_line : string :=
  "Usage: progress_notifier.py <message> [--plot /path/to.png]".

Section Main.

Variable w : world.

(** Python's [int] on a string: the integer, or the [ValueError] it
    raises. *)
Variable py_int : string -> outcome Z.

(** [int(_env("OPENCLAW_PROGRESS_INTERVAL_SEC", "300"))]. *)
Definition main_interval (e : environ) : outcome Z :=
  py_int (str (_env e "OPENCLAW_PROGRESS_INTERVAL_SEC" (Some "300"))).

(** [int(_env("OPENCLAW_PROGRESS_PLOT_INTERVAL_SEC",
              _env("OPENCLAW_PROGRESS_INTERVAL_SEC", "300")))]. *)
Definition main_plot_interval (e : environ) : outcome Z :=
  py_int (str (_env e "OPENCLAW_PROGRESS_PLOT_INTERVAL_SEC"
                 (_env e "OPENCLAW_PROGRESS_INTERVAL_SEC" (Some "300")))).

(** The end of [main], once the arguments are parsed: the notifier is
    built with the intervals of the environment and [maybe_send] is called
    once.  The process starts with an empty trace; [now] is what
    [time.time()] returns in that call. *)
Definition main_send (e : environ) (now : Q) (message : string)
    (plot_path : option string) : main_result :=
  match main_interval e with
  | Raised exc => Uncaught exc
  | Returned interval =>
      match main_plot_interval e with
      | Raised exc => Uncaught exc
      | Returned plot_interval =>
          Completed
            (maybe_send w now message plot_path
               (__init__ w e interval (Some plot_interval), []))
      end
  end.

(** [main()], for the argument vector [sys.argv] under the environment
    [e]. *)
Definition main (e : environ) (now : Q) (argv : list string) : main_result :=
  if (length argv <? 2)%nat then SysExit usage_line 1
  else
    let args := drop 1 argv in
    let parsed : string + option string * list string :=
      match list_index "--plot" args with
      | Some idx =>
          if (length args <=? idx + 1)%nat
          then inl "--plot requires a file path"
          else inr (args !! (idx + 1)%nat,
                    take idx args ++ drop (idx + 2) args)
      | None => inr (None, args)
      end in
    match parsed with
    | inl line => SysExit line 1
    | inr (plot_path, args) =>
        main_send e now (String.concat " " args) plot_path
    end.

End Main.

(** ** More ways to read a notifier, a call and a trace *)

Definition is_cli (e : event) : bool :=
  match e with Cli _ => true | _ => false end.

Definition is_post (e : event) : bool :=
  match e with Post _ => true | _ => false end.

(** The variable [name] is set to a non-empty value. *)
Definition env_set (e : environ) (name : string) : Prop :=
  exists v, e !! name = Some v /\ v <> "".

(** The environment names a channel and a target, each by its own
    variable or by the default one. *)
Definition env_configured (e : environ) : Prop :=
  (env_set e "OPENCLAW_PROGRESS_CHANNEL" \/ env_set e "OPENCLAW_DEFAULT_DM_CHANNEL")
  /\ (env_set e "OPENCLAW_PROGRESS_TARGET" \/ env_set e "OPENCLAW_DEFAULT_DM_TARGET").

(** The dry-run probe of a self-test started at [tr] is made and returns
    status 0. *)
Definition probe_ok (w : world) (n : ProgressNotifier) (tr : trace) : bool :=
  _cli_available n
  && match subprocess_run w tr (probe_args n) with
     | Returned r => (returncode r =? 0)%Z
     | Raised _ => false
     end.

(** A delivery method is usable: the CLI path, or the HTTP path with a
    gateway URL and a token. *)
Definition delivery_enabled (n : ProgressNotifier) : bool :=
  negb (_use_http n) || truthy (gateway_url n) && truthy (gateway_token n).

(** A [maybe_send] for which, on the notifier [n], neither the text nor
    the plot is due. *)
Definition quiet (n : ProgressNotifier) (c : call) : bool :=
  match c with
  | SendNow _ _ => false
  | MaybeSend now _ plot_path =>
      negb (elapsed now (last_sent n) (interval_sec n))
      && negb (truthy plot_path
               && elapsed now (last_plot_sent n) (plot_interval_sec n))
  end.

(** The clock readings of the calls never go back, starting from [t]. *)
Fixpoint clock_from (t : Q) (cs : list call) : Prop :=
  match cs with
  | [] => True
  | SendNow _ _ :: rest => clock_from t rest
  | MaybeSend now _ _ :: rest => (t <= now)%Q /\ clock_from now rest
  end.

(** The characters of [s] end with a slash. *)
Definition ends_with_slash (s : string) : Prop :=
  last (list_ascii_of_string s) = Some "/"%char.

(** ** Sample inputs for the command line *)

Module SampleMain.

Definition py_int (s : string) : outcome Z :=
  if String.eqb s "300" then Returned 300%Z
  else if String.eqb s "60" then Returned 60%Z
  else if String.eqb s "9999" then Returned 9999%Z
  else Raised (Exception "ValueError").

Definition environ_intervals : environ :=
  <["OPENCLAW_PROGRESS_INTERVAL_SEC" := "60"]> Sample.environ_discord.

Definition t410 : Q := 1700000410.


(** A notifier that has run its self-test and selected the HTTP gateway. *)
Definition notifier_http : ProgressNotifier :=
  set_use_http true
    (set_tested true
       (__init__ Sample.world_offline Sample.environ_gateway 0 None)).

End SampleMain.

(** * Properties

    First the equations that turn the methods into functions, then what
    one pass through the dispatcher does, then the entry points. *)

Ltac trace_norm := simpl; rewrite <- ?List.app_assoc; simpl.

(** [s[:k]] counts characters, not bytes. *)
Example str_take_characters :
  str_take 2 "héllo" = "hé"
  /\ String.length (str_take 2 "héllo") = 3%nat
  /\ str_take 0 "héllo" = ""
  /\ str_take 9 "héllo" = "héllo".
Proof. vm_compute. repeat split. Qed.

Section Dispatcher.

Variable w : world.

(** [_selftest] never raises, and is [selftest_outcome]. *)
Lemma _selftest_eq n tr :
  _selftest w (n, tr)
  = (Returned tt,
     ((selftest_outcome w n tr).1, tr ++ (selftest_outcome w n tr).2)).
Proof.
  unfold _selftest, selftest_outcome, _selftest_cli, bind, self, assign,
    try_except, run_subprocess, print_stderr, emit, ret.
  simpl.
  destruct (_tested n); simpl; [rewrite app_nil_r; reflexivity|].
  destruct (negb (truthy (channel n)) || negb (truthy (target n))); simpl;
    [reflexivity|].
  destruct (_cli_available n) eqn:Hc; simpl.
  - change (probe_args (set_tested true n)) with (probe_args n).
    destruct (subprocess_run w tr (probe_args n)) as [r|exc]; simpl.
    + destruct (returncode r =? 0)%Z; simpl.
      * reflexivity.
      * unfold probe_diag, http_diag.
        destruct (str_in _ _); simpl;
          destruct (truthy (gateway_url n) && truthy (gateway_token n));
          trace_norm; reflexivity.
    + unfold http_diag.
      destruct (truthy (gateway_url n) && truthy (gateway_token n));
        trace_norm; reflexivity.
  - unfold http_diag.
    destruct (truthy (gateway_url n) && truthy (gateway_token n));
      trace_norm; reflexivity.
Qed.

(** [_send_http] raises only what the request constructor raises, before
    anything is posted; it posts once when the gateway is configured and
    the request is built, whatever [urlopen] answers. *)
Lemma _send_http_eq message media n tr :
  _send_http w message media (n, tr)
  = if truthy (gateway_url n) && truthy (gateway_token n) then
      match request_error w (_send_http_request w n tr message media) with
      | Some exc => (Raised exc, (n, tr))
      | None =>
          (Returned tt,
           (n, tr ++ [Post (_send_http_request w n tr message media)]))
      end
    else (Returned tt, (n, tr)).
Proof.
  unfold _send_http, bind, self, history, try_except, open_url, new_request,
    ret.
  simpl.
  destruct (truthy (gateway_url n)), (truthy (gateway_token n)); simpl;
    try reflexivity.
  destruct (request_error w _); [reflexivity|].
  destruct (urlopen w tr _) as [[]|]; reflexivity.
Qed.

(** The request the code builds is the one the gateway is to receive. *)
Lemma _send_http_request_eq n tr message media :
  _send_http_request w n tr message media = gateway_request w n tr message media.
Proof. reflexivity. Qed.

(** The dispatcher as a function: the entry, the self-test, the send. *)
Lemma _send_message_eq args media n tr :
  _send_message w args media (n, tr)
  = let tr0 := tr ++ [Dispatch args media] in
    let n' := (selftest_outcome w n tr0).1 in
    let tr1 := tr0 ++ (selftest_outcome w n tr0).2 in
    ((delivery w n' tr1 args media).1,
     (n', tr1 ++ (delivery w n' tr1 args media).2)).
Proof.
  unfold _send_message. unfold bind at 1. unfold emit at 1. simpl.
  unfold bind at 1. rewrite _selftest_eq.
  unfold bind, self, delivery; simpl.
  destruct (_use_http _).
  - rewrite _send_http_eq, _send_http_request_eq.
    destruct (truthy _ && truthy _); [|simpl; rewrite app_nil_r; reflexivity].
    destruct (request_error w _); simpl; [rewrite app_nil_r|]; reflexivity.
  - unfold try_except, run_subprocess, bind, ret; simpl.
    destruct (subprocess_run w _ args); reflexivity.
Qed.

Lemma delivery_update_refl n : delivery_update n n.
Proof. destruct n; reflexivity. Qed.

(** The self-test touches the delivery flags only, leaves the notifier
    tested, adds only probe and diagnostic events, at most one probe, and
    does nothing on a tested notifier. *)
Lemma selftest_outcome_spec n tr :
  let n' := (selftest_outcome w n tr).1 in
  let evs := (selftest_outcome w n tr).2 in
  delivery_update n n'
  /\ _tested n' = true
  /\ forallb is_selftest evs = true
  /\ (length (probes evs) <= 1)%nat
  /\ (_tested n = true -> n' = n /\ evs = []).
Proof.
  unfold selftest_outcome, delivery_update.
  destruct (_tested n) eqn:Ht; simpl.
  { destruct n; simpl in *; subst; auto 10. }
  destruct (negb (truthy (channel n)) || negb (truthy (target n))); simpl.
  { repeat split; auto; discriminate. }
  destruct (_cli_available n); simpl.
  - destruct (subprocess_run w tr (probe_args n)) as [r|exc]; simpl;
      [destruct (returncode r =? 0)%Z; simpl|];
      repeat split; auto; discriminate.
  - repeat split; auto; discriminate.
Qed.

(** Self-test events are neither dispatches nor sends. *)
Lemma selftest_only evs :
  forallb is_selftest evs = true ->
  dispatches evs = [] /\ sends evs = [] /\ selftest_events evs = evs.
Proof.
  unfold dispatches, sends, selftest_events.
  induction evs as [|e evs IH]; simpl; [auto|].
  intros [He Hevs]%andb_prop. destruct (IH Hevs) as (Hd & Hs & Hst).
  destruct e; simpl in *; try discriminate; rewrite ?Hst; auto.
Qed.

(** What [delivery] adds is at most one event, a send; it raises only on
    the HTTP path, with a gateway URL and a token, and then adds
    nothing. *)
Lemma delivery_cases n tr args media :
  let d := delivery w n tr args media in
  dispatches d.2 = [] /\ probes d.2 = [] /\ selftest_events d.2 = []
  /\ sends d.2 = d.2
  /\ (length d.2 <= 1)%nat
  /\ forallb (if _use_http n then is_post else is_cli) d.2 = true
  /\ (_use_http n = false -> d = (Returned tt, [Cli args]))
  /\ (delivery_enabled n = false -> d = (Returned tt, []))
  /\ (forall exc, d.1 = Raised exc -> d.2 = [] /\ delivery_enabled n = true
                                      /\ _use_http n = true)
  /\ (d.1 = Returned tt -> delivery_enabled n = true -> length d.2 = 1%nat).
Proof.
  unfold delivery, delivery_enabled.
  destruct (_use_http n); simpl;
    [destruct (truthy _ && truthy _); simpl;
     [destruct (request_error w _); simpl|]|];
    repeat split; auto; try discriminate; intros; discriminate.
Qed.

(** A delivery update keeps the configuration and both timestamps. *)
Lemma delivery_update_fields n n' :
  delivery_update n n' ->
  interval_sec n' = interval_sec n /\ plot_interval_sec n' = plot_interval_sec n
  /\ last_sent n' = last_sent n /\ last_plot_sent n' = last_plot_sent n
  /\ channel n' = channel n /\ target n' = target n
  /\ gateway_url n' = gateway_url n /\ gateway_token n' = gateway_token n
  /\ _cli_available n' = _cli_available n.
Proof. intros ->. simpl. repeat split. Qed.

(** Every call of the dispatcher is one dispatch. *)
Lemma _send_message_obs args media n tr :
  exists r n' evs,
    _send_message w args media (n, tr) = (r, (n', tr ++ evs))
    /\ one_dispatch w tr args media n r n' evs.
Proof.
  rewrite _send_message_eq. cbv zeta.
  set (tr0 := tr ++ [Dispatch args media]).
  destruct (selftest_outcome_spec n tr0) as (Hup & Ht & Hev & Hp & Hid).
  set (n' := (selftest_outcome w n tr0).1) in *.
  set (evs := (selftest_outcome w n tr0).2) in *.
  assert (Etr : tr0 ++ evs = tr ++ Dispatch args media :: evs).
  { unfold tr0. rewrite <- List.app_assoc. reflexivity. }
  rewrite Etr.
  set (d := delivery w n' (tr ++ Dispatch args media :: evs) args media).
  exists d.1, n', ((Dispatch args media :: evs) ++ d.2).
  split.
  { rewrite <- !List.app_assoc. reflexivity. }
  destruct (selftest_only evs Hev) as (Hd & Hs & Hst).
  destruct (delivery_cases n' (tr ++ Dispatch args media :: evs) args media)
    as (Sd & Sp & Sst & Ss & Sl & _).
  fold d in Sd, Sp, Sst, Ss, Sl.
  unfold one_dispatch, delivers, dispatches, sends, probes, selftest_events in *.
  rewrite !List.filter_app. simpl. rewrite Hd, Hs, Sd, Sp, Sst, Ss, Hst.
  simpl. rewrite !app_nil_r.
  split; [exact Hup|]. split; [exact Ht|]. split; [reflexivity|].
  split; [exact Sl|]. split; [exact Hp|]. split.
  - exists (Dispatch args media :: evs). simpl. rewrite Hs. auto.
  - intros Hx. destruct (Hid Hx) as [-> ->]. auto.
Qed.

Lemma configured_guard n :
  configured n = true ->
  negb (truthy (channel n)) || negb (truthy (target n)) = false.
Proof.
  unfold configured. intros [-> ->]%andb_prop. reflexivity.
Qed.

Lemma unconfigured_guard n :
  configured n = false ->
  negb (truthy (channel n)) || negb (truthy (target n)) = true.
Proof.
  unfold configured.
  destruct (truthy (channel n)), (truthy (target n)); simpl; congruence.
Qed.

(** Past the guard, [send_now] is the dispatcher on the same notifier. *)
Lemma send_now_unfold message plot n tr :
  configured n = true ->
  send_now w message plot (n, tr)
  = _send_message w
      (cmd_text n message ++ (if truthy plot then ["--media"; str plot] else []))
      plot (n, tr).
Proof.
  intros Hc. unfold send_now, bind, self. simpl.
  rewrite (configured_guard n Hc). reflexivity.
Qed.

(** Past the guard, [maybe_send] is, by the throttle decision, the
    dispatcher on the notifier that already bears the new timestamps, or
    nothing. *)
Lemma maybe_send_unfold now message plot n tr :
  configured n = true ->
  maybe_send w now message plot (n, tr)
  = let send_text := elapsed now (last_sent n) (interval_sec n) in
    let send_plot :=
      truthy plot && elapsed now (last_plot_sent n) (plot_interval_sec n) in
    if send_text && negb send_plot then
      _send_message w (cmd_text n message) None (set_last_sent now n, tr)
    else if send_text && send_plot then
      _send_message w (cmd_media n message plot) plot
        (set_last_plot_sent now (set_last_sent now n), tr)
    else if send_plot then
      _send_message w (cmd_media n message plot) plot
        (set_last_plot_sent now n, tr)
    else (Returned tt, (n, tr)).
Proof.
  intros Hc. unfold maybe_send, bind, self, assign, ret. simpl.
  rewrite (configured_guard n Hc).
  destruct (elapsed now (last_sent n) (interval_sec n)),
    (truthy plot && elapsed now (last_plot_sent n) (plot_interval_sec n));
    reflexivity.
Qed.




End Dispatcher.

Section Entry.

Variable w : world.

Lemma retime_id n : retime (last_sent n) (last_plot_sent n) n = n.
Proof. destruct n; reflexivity. Qed.

Lemma send_now_spec message plot n tr :
  configured n = true ->
  exists r n' evs,
    send_now w message plot (n, tr) = (r, (n', tr ++ evs))
    /\ one_dispatch w tr
         (cmd_text n message ++ (if truthy plot then ["--media"; str plot] else []))
         plot n r n' evs.
Proof.
  intros Hc. rewrite send_now_unfold by assumption. apply _send_message_obs.
Qed.

Lemma maybe_send_spec now message plot n tr :
  configured n = true ->
  exists r n' evs,
    maybe_send w now message plot (n, tr) = (r, (n', tr ++ evs))
    /\ let send_text := elapsed now (last_sent n) (interval_sec n) in
       let send_plot :=
         truthy plot && elapsed now (last_plot_sent n) (plot_interval_sec n) in
       if send_text && negb send_plot then
         one_dispatch w tr (cmd_text n message) None (set_last_sent now n)
           r n' evs
       else if send_text && send_plot then
         one_dispatch w tr (cmd_media n message plot) plot
           (set_last_plot_sent now (set_last_sent now n)) r n' evs
       else if send_plot then
         one_dispatch w tr (cmd_media n message plot) plot
           (set_last_plot_sent now n) r n' evs
       else r = Returned tt /\ n' = n /\ evs = [].
Proof.
  intros Hc. rewrite maybe_send_unfold by assumption. cbv zeta.
  destruct (elapsed now (last_sent n) (interval_sec n)),
    (truthy plot && elapsed now (last_plot_sent n) (plot_interval_sec n));
    simpl; try apply _send_message_obs.
  exists (Returned tt), n, []. rewrite app_nil_r. auto.
Qed.

Lemma unconfigured_send_now message plot n tr :
  configured n = false ->
  send_now w message plot (n, tr) = (Returned tt, (n, tr)).
Proof.
  intros Hc. unfold send_now, bind, self. simpl.
  rewrite (unconfigured_guard n Hc). reflexivity.
Qed.

Lemma unconfigured_maybe_send now message plot n tr :
  configured n = false ->
  maybe_send w now message plot (n, tr) = (Returned tt, (n, tr)).
Proof.
  intros Hc. unfold maybe_send, bind, self. simpl.
  rewrite (unconfigured_guard n Hc). reflexivity.
Qed.

(** A call either does nothing or is one pass through the dispatcher on
    the notifier with some timestamps renewed. *)
Lemma perform_spec c n tr :
  exists r n' evs,
    perform w c (n, tr) = (r, (n', tr ++ evs))
    /\ ((r = Returned tt /\ n' = n /\ evs = [])
        \/ (configured n = true
            /\ exists args media t1 t2,
                 one_dispatch w tr args media (retime t1 t2 n) r n' evs)).
Proof.
  destruct (configured n) eqn:Hc.
  - destruct c as [message plot|now message plot]; simpl.
    + destruct (send_now_spec message plot n tr Hc) as (r & n' & evs & E & H).
      exists r, n', evs. split; [exact E|]. right. split; [reflexivity|].
      exists (cmd_text n message ++ (if truthy plot then ["--media"; str plot] else [])),
        plot, (last_sent n), (last_plot_sent n).
      rewrite retime_id. exact H.
    + destruct (maybe_send_spec now message plot n tr Hc)
        as (r & n' & evs & E & H).
      exists r, n', evs. split; [exact E|]. cbv zeta in H.
      destruct (elapsed now (last_sent n) (interval_sec n)),
        (truthy plot && elapsed now (last_plot_sent n) (plot_interval_sec n));
        simpl in H.
      * right. split; [reflexivity|].
        exists (cmd_media n message plot), plot, now, now. exact H.
      * right. split; [reflexivity|].
        exists (cmd_text n message), None, now, (last_plot_sent n).
        replace (retime now (last_plot_sent n) n) with (set_last_sent now n)
          by (destruct n; reflexivity). exact H.
      * right. split; [reflexivity|].
        exists (cmd_media n message plot), plot, (last_sent n), now.
        replace (retime (last_sent n) now n) with (set_last_plot_sent now n)
          by (destruct n; reflexivity). exact H.
      * left. exact H.
  - exists (Returned tt), n, []. rewrite app_nil_r. split; [|left; auto].
    destruct c; simpl;
      [apply unconfigured_send_now | apply unconfigured_maybe_send]; assumption.
Qed.

(** What one dispatch shows of its sends, by delivery state. *)
Lemma delivers_cases tr args media n' r evs :
  delivers w tr args media n' r evs ->
  (_use_http n' = false -> r = Returned tt /\ sends evs = [Cli args])
  /\ (delivery_enabled n' = false -> r = Returned tt /\ sends evs = [])
  /\ (forall exc, r = Raised exc ->
        sends evs = [] /\ delivery_enabled n' = true /\ _use_http n' = true)
  /\ (r = Returned tt -> delivery_enabled n' = true ->
      length (sends evs) = 1%nat)
  /\ forallb (if _use_http n' then is_post else is_cli) (sends evs) = true.
Proof.
  intros (pre & Hs & -> & ->).
  destruct (delivery_cases w n' (tr ++ pre) args media)
    as (_ & _ & _ & Ss & _ & Hk & Hcli & Hoff & Hr & Hone).
  unfold sends in *. rewrite List.filter_app, Hs, Ss. simpl.
  split; [|split; [|split; [|split]]].
  - intros H. rewrite (Hcli H). auto.
  - intros H. rewrite (Hoff H). auto.
  - exact Hr.
  - exact Hone.
  - exact Hk.
Qed.

(** The message the HTTP path recovers is the message of the call,
    unless the channel or the target is itself ["--message"]. *)
Lemma extract_message_cmd_text n message :
  str (channel n) <> "--message" ->
  str (target n) <> "--message" ->
  extract_message (cmd_text n message) = message.
Proof.
  intros Hc Ht. unfold cmd_text. simpl.
  apply String.eqb_neq in Hc, Ht. rewrite Hc, Ht. reflexivity.
Qed.


Lemma extract_message_cmd_send_now n message plot :
  str (channel n) <> "--message" ->
  str (target n) <> "--message" ->
  extract_message
    (cmd_text n message ++ (if truthy plot then ["--media"; str plot] else []))
  = message.
Proof.
  intros Hc Ht. unfold cmd_text. apply String.eqb_neq in Hc, Ht.
  destruct (truthy plot); simpl; rewrite Hc, Ht; reflexivity.
Qed.

(** A delivery update keeps a notifier configured. *)
Lemma delivery_update_configured n n' :
  delivery_update n n' -> configured n' = configured n.
Proof.
  intros H. apply delivery_update_fields in H.
  destruct H as (_ & _ & _ & _ & Hch & Htg & _).
  unfold configured. rewrite Hch, Htg. reflexivity.
Qed.

(** Where the request constructor accepts every request, [delivery]
    returns. *)
Lemma delivery_returns n tr args media :
  (forall req, request_error w req = None) ->
  (delivery w n tr args media).1 = Returned tt.
Proof.
  intros Hreq. unfold delivery.
  destruct (_use_http n); [|reflexivity].
  destruct (truthy _ && truthy _); [|reflexivity].
  rewrite Hreq. reflexivity.
Qed.

Lemma delivers_returns tr args media n' r evs :
  (forall req, request_error w req = None) ->
  delivers w tr args media n' r evs -> r = Returned tt.
Proof.
  intros Hreq (pre & _ & _ & ->). apply delivery_returns. exact Hreq.
Qed.

Lemma perform_returns c n tr :
  (forall req, request_error w req = None) ->
  (perform w c (n, tr)).1 = Returned tt.
Proof.
  intros Hreq.
  destruct (perform_spec c n tr) as (r & n' & evs & E & H). rewrite E. simpl.
  destruct H as [(-> & _)|(_ & args & media & t1 & t2 & H)]; [reflexivity|].
  destruct H as (_ & _ & _ & _ & _ & Hdel & _).
  eapply delivers_returns; eassumption.
Qed.

(** ** Callers *)

(** A caller that stops at the first exception has made the calls of a
    prefix of the sequence, the raising call included. *)
Lemma perform_all_prefix cs : forall st,
  exists cs1 cs2,
    cs = cs1 ++ cs2 /\ (perform_all w cs st).2 = attempt_all w cs1 st.
Proof.
  induction cs as [|c cs IH]; intros st.
  - exists [], []. auto.
  - simpl. unfold bind.
    destruct (perform w c st) as [[[]|exc] st1] eqn:E.
    + destruct (IH st1) as (cs1 & cs2 & -> & H).
      exists (c :: cs1), cs2. simpl. rewrite E. auto.
    + exists [c], cs. simpl. rewrite E. auto.
Qed.


Lemma perform_all_returns cs : forall n tr,
  (forall req, request_error w req = None) ->
  (perform_all w cs (n, tr)).1 = Returned tt.
Proof.
  induction cs as [|c cs IH]; intros n tr Hreq; simpl; [reflexivity|].
  unfold bind. pose proof (perform_returns c n tr Hreq) as H.
  destruct (perform w c (n, tr)) as [[[]|exc] [n1 tr1]]; simpl in H;
    [|discriminate].
  apply IH. exact Hreq.
Qed.

End Entry.

(** ** The configuration resolver *)

Section Resolver.

Variable w : world.

Lemma _env_absent (e : environ) name :
  _env e name None = None <-> e !! name = None \/ e !! name = Some "".
Proof.
  unfold _env. destruct (e !! name) as [v|]; [|tauto].
  destruct (String.eqb v "") eqn:E.
  - apply String.eqb_eq in E. subst. tauto.
  - apply String.eqb_neq in E. split; [discriminate|].
    intros [H|H]; congruence.
Qed.

(** [_env] never answers with the empty string. *)
Lemma _env_truthy (e : environ) name :
  truthy (_env e name None)
  = match _env e name None with Some _ => true | None => false end.
Proof.
  unfold _env, truthy. destruct (e !! name) as [v|]; [|reflexivity].
  destruct (String.eqb v "") eqn:E; [reflexivity|]. rewrite E. reflexivity.
Qed.

(** The cases of the test suite for [_env]. *)
Example _env_cases :
  _env (<["TEST_VAR" := "hello"]> ∅) "TEST_VAR" None = Some "hello"
  /\ _env ∅ "MISSING_VAR" (Some "fallback") = Some "fallback"
  /\ _env (<["EMPTY_VAR" := ""]> ∅) "EMPTY_VAR" (Some "fallback") = Some "fallback"
  /\ _env ∅ "MISSING_VAR" None = None.
Proof. vm_compute. repeat split. Qed.

(** With both channel variables, or both target variables, unset or empty,
    the notifier built from the environment is not configured. *)
Lemma init_unconfigured (e : environ) interval plot_interval :
  (_env e "OPENCLAW_PROGRESS_CHANNEL" None = None
   /\ _env e "OPENCLAW_DEFAULT_DM_CHANNEL" None = None)
  \/ (_env e "OPENCLAW_PROGRESS_TARGET" None = None
      /\ _env e "OPENCLAW_DEFAULT_DM_TARGET" None = None) ->
  configured (__init__ w e interval plot_interval) = false.
Proof.
  unfold configured, __init__, py_or. simpl.
  intros [[-> ->]|[-> ->]]; simpl; [reflexivity|apply andb_false_r].
Qed.

End Resolver.

(** * The claims *)

Section Throttle.

Variable w : world.

(** C2.  A notifier whose channel or target is absent is inert: [send_now]
    and [maybe_send] return at once, leaving the notifier (so also both
    throttle timestamps and the delivery flags) and the trace as they
    were, so no dispatch, no probe, no CLI subprocess and no HTTP request;
    and this stays so over any sequence of calls.  By [init_unconfigured]
    this is the notifier built from an environment whose channel
    variables, or target variables, are unset or empty. *)
Theorem unconfigured_is_inert n tr :
  configured n = false ->
  (forall message plot,
      send_now w message plot (n, tr) = (Returned tt, (n, tr)))
  /\ (forall now message plot,
      maybe_send w now message plot (n, tr) = (Returned tt, (n, tr)))
  /\ (forall cs, perform_all w cs (n, tr) = (Returned tt, (n, tr))).
Proof.
  intros Hc. split; [|split].
  - intros. apply unconfigured_send_now; assumption.
  - intros. apply unconfigured_maybe_send; assumption.
  - induction cs as [|c cs IH]; [reflexivity|].
    simpl. unfold bind.
    replace (perform w c (n, tr)) with (@Returned unit tt, (n, tr)); [exact IH|].
    symmetry. destruct c; simpl;
      [apply unconfigured_send_now | apply unconfigured_maybe_send]; assumption.
Qed.

(** C5.  What holds of the claim that the dispatcher never raises.
    Whatever the world answers to [subprocess.run] and to [urlopen], a
    value or any exception, at the probe or at the send, [_send_message],
    [_send_http], [send_now] and [maybe_send] return normally, and so does
    any sequence of calls, provided the constructor of the HTTP request
    accepts every request it is given.  Without that proviso the claim
    fails: the constructor is called outside every [try], see
    [send_raises_on_schemeless_gateway]. *)
Theorem sends_never_raise_when_request_builds n tr :
  (forall req, request_error w req = None) ->
  (forall args media, exists st',
      _send_message w args media (n, tr) = (Returned tt, st'))
  /\ (forall message media, exists st',
      _send_http w message media (n, tr) = (Returned tt, st'))
  /\ (forall message plot, exists st',
      send_now w message plot (n, tr) = (Returned tt, st'))
  /\ (forall now message plot, exists st',
      maybe_send w now message plot (n, tr) = (Returned tt, st'))
  /\ (forall cs, exists st',
      perform_all w cs (n, tr) = (Returned tt, st')).
Proof.
  intros Hreq. split; [|split; [|split; [|split]]].
  - intros. rewrite _send_message_eq. cbv zeta.
    rewrite delivery_returns by assumption. eauto.
  - intros. rewrite _send_http_eq, Hreq.
    destruct (truthy _ && truthy _); eauto.
  - intros.
    pose proof (perform_returns w (SendNow message plot) n tr Hreq) as H.
    simpl in H. destruct (send_now w message plot (n, tr)) as [r st'].
    simpl in H. subst r. eauto.
  - intros.
    pose proof (perform_returns w (MaybeSend now message plot) n tr Hreq) as H.
    simpl in H. destruct (maybe_send w now message plot (n, tr)) as [r st'].
    simpl in H. subst r. eauto.
  - intros cs. pose proof (perform_all_returns w cs n tr Hreq) as H.
    destruct (perform_all w cs (n, tr)) as [r st']. simpl in H. subst r. eauto.
Qed.


End Throttle.

Lemma unconfigured_is_inert_witness :
  configured Sample.notifier_unset = false
  /\ (forall message plot,
         send_now Sample.world_cli message plot (Sample.notifier_unset, [])
         = (Returned tt, (Sample.notifier_unset, [])))
  /\ (forall now message plot,
         maybe_send Sample.world_cli now message plot (Sample.notifier_unset, [])
         = (Returned tt, (Sample.notifier_unset, [])))
  /\ (forall cs,
         perform_all Sample.world_cli cs (Sample.notifier_unset, [])
         = (Returned tt, (Sample.notifier_unset, []))).
Proof.
  split; [vm_compute; reflexivity|].
  apply unconfigured_is_inert. vm_compute; reflexivity.
Defined.

Lemma sends_never_raise_when_request_builds_witness :
  (forall req, request_error Sample.world_offline req = None)
  /\ (forall args media, exists st',
         _send_message Sample.world_offline args media (Sample.notifier, [])
         = (Returned tt, st'))
  /\ (forall message media, exists st',
         _send_http Sample.world_offline message media (Sample.notifier, [])
         = (Returned tt, st'))
  /\ (forall message plot, exists st',
         send_now Sample.world_offline message plot (Sample.notifier, [])
         = (Returned tt, st'))
  /\ (forall now message plot, exists st',
         maybe_send Sample.world_offline now message plot (Sample.notifier, [])
         = (Returned tt, st'))
  /\ (forall cs, exists st',
         perform_all Sample.world_offline cs (Sample.notifier, [])
         = (Returned tt, st')).
Proof.
  split; [intros req; reflexivity|].
  apply sends_never_raise_when_request_builds. intros req; reflexivity.
Defined.

(** C5 fails of the code.  Nothing is installed, the environment names a
    channel, a target, a token and the gateway [gateway.local], without a
    scheme.  The first [send_now] selects the HTTP path and raises the
    [ValueError] of [urllib.request.Request] to its caller; nothing is
    sent.  So do [maybe_send] and [_send_message], and [_send_http] where
    the HTTP path is selected; a caller making two calls is ended by the
    first.  The self-test has run and the throttle timestamp of
    [maybe_send] is set all the same. *)
Lemma send_raises_on_schemeless_gateway :
  configured Sample.notifier_bad_gateway = true
  /\ gateway_url Sample.notifier_bad_gateway = Some "gateway.local"
  /\ send_now Sample.world_no_scheme "hello" None
       (Sample.notifier_bad_gateway, [])
     = (Raised (Exception "ValueError"),
        (set_use_http true (set_tested true Sample.notifier_bad_gateway),
         [Dispatch (cmd_text Sample.notifier_bad_gateway "hello") None;
          Diag (InfoHttpFallback "gateway.local")]))
  /\ maybe_send Sample.world_no_scheme Sample.t0 "hello" None
       (Sample.notifier_bad_gateway, [])
     = (Raised (Exception "ValueError"),
        (set_last_sent Sample.t0
           (set_use_http true (set_tested true Sample.notifier_bad_gateway)),
         [Dispatch (cmd_text Sample.notifier_bad_gateway "hello") None;
          Diag (InfoHttpFallback "gateway.local")]))
  /\ (_send_message Sample.world_no_scheme
        (cmd_text Sample.notifier_bad_gateway "hello") None
        (Sample.notifier_bad_gateway, [])).1
     = Raised (Exception "ValueError")
  /\ _send_http Sample.world_no_scheme "hello" None
       (set_use_http true (set_tested true Sample.notifier_bad_gateway), [])
     = (Raised (Exception "ValueError"),
        (set_use_http true (set_tested true Sample.notifier_bad_gateway), []))
  /\ (perform_all Sample.world_no_scheme
        [SendNow "hello" None; SendNow "again" None]
        (Sample.notifier_bad_gateway, [])).1
     = Raised (Exception "ValueError")
  /\ dispatches
       (perform_all Sample.world_no_scheme
          [SendNow "hello" None; SendNow "again" None]
          (Sample.notifier_bad_gateway, [])).2.2
     = [Dispatch (cmd_text Sample.notifier_bad_gateway "hello") None].
Proof. vm_compute. repeat split. Qed.


Section Decision.

Variable w : world.



(** C10.  The throttle timestamps advance on the decision to send, before
    the dispatch and whatever becomes of it.  On a configured notifier,
    when [maybe_send] decides to send the text, [last_sent] is the current
    time afterwards, and when it decides to send the plot,
    [last_plot_sent] is; a timestamp it did not decide on is unchanged.
    The call is the dispatcher run on the notifier that already bears the
    new timestamps.  All this holds in every world and however the call
    ends: when the CLI subprocess raises, when the POST raises, when the
    HTTP path returns without sending because the gateway URL or token is
    not set, and when the call itself raises because the request cannot
    be built, which only a notifier stamped before the dispatch can
    show. *)
Theorem timestamps_advance_on_decision n tr now message plot :
  configured n = true ->
  let send_text := elapsed now (last_sent n) (interval_sec n) in
  let send_plot :=
    truthy plot && elapsed now (last_plot_sent n) (plot_interval_sec n) in
  let stamped :=
    (if send_plot then set_last_plot_sent now else id)
      ((if send_text then set_last_sent now else id) n) in
  exists r n' evs,
    maybe_send w now message plot (n, tr) = (r, (n', tr ++ evs))
    /\ last_sent n' = (if send_text then now else last_sent n)
    /\ last_plot_sent n' = (if send_plot then now else last_plot_sent n)
    /\ (send_text || send_plot = true ->
        exists args media,
          maybe_send w now message plot (n, tr)
          = _send_message w args media (stamped, tr)
          /\ dispatches evs = [Dispatch args media]
          /\ delivers w tr args media n' r evs)
    /\ (send_text || send_plot = false ->
        r = Returned tt /\ n' = n /\ evs = []).
Proof.
  intros Hc. cbv zeta.
  destruct (maybe_send_spec w now message plot n tr Hc) as (r & n' & evs & E & H).
  exists r, n', evs. split; [exact E|]. cbv zeta in H.
  rewrite maybe_send_unfold by assumption. cbv zeta.
  destruct (elapsed now (last_sent n) (interval_sec n)),
    (truthy plot && elapsed now (last_plot_sent n) (plot_interval_sec n));
    simpl in *;
    try (destruct H as (Hup & _ & Hd & _ & _ & Hdel & _);
         apply delivery_update_fields in Hup;
         destruct Hup as (_ & _ & Hls & Hlp & _);
         split; [exact Hls|]; split; [exact Hlp|];
         split; [intros _; eauto|discriminate]).
  destruct H as (-> & -> & ->).
  split; [reflexivity|]. split; [reflexivity|]. split; [discriminate|auto].
Qed.

End Decision.



Lemma timestamps_advance_on_decision_witness :
  configured Sample.notifier_bad_gateway = true
  /\ exists r n' evs,
       maybe_send Sample.world_no_scheme Sample.t400 "epoch 9" Sample.plot
         (Sample.notifier_bad_gateway, [])
       = (r, (n', [] ++ evs))
       /\ last_sent n'
          = (if elapsed Sample.t400 (last_sent Sample.notifier_bad_gateway)
                  (interval_sec Sample.notifier_bad_gateway)
             then Sample.t400 else last_sent Sample.notifier_bad_gateway)
       /\ last_plot_sent n'
          = (if truthy Sample.plot
                && elapsed Sample.t400 (last_plot_sent Sample.notifier_bad_gateway)
                     (plot_interval_sec Sample.notifier_bad_gateway)
             then Sample.t400 else last_plot_sent Sample.notifier_bad_gateway)
       /\ (elapsed Sample.t400 (last_sent Sample.notifier_bad_gateway)
             (interval_sec Sample.notifier_bad_gateway)
           || truthy Sample.plot
              && elapsed Sample.t400 (last_plot_sent Sample.notifier_bad_gateway)
                   (plot_interval_sec Sample.notifier_bad_gateway) = true ->
           exists args media,
             maybe_send Sample.world_no_scheme Sample.t400 "epoch 9" Sample.plot
               (Sample.notifier_bad_gateway, [])
             = _send_message Sample.world_no_scheme args media
                 ((if truthy Sample.plot
                      && elapsed Sample.t400
                           (last_plot_sent Sample.notifier_bad_gateway)
                           (plot_interval_sec Sample.notifier_bad_gateway)
                   then set_last_plot_sent Sample.t400 else id)
                    ((if elapsed Sample.t400
                           (last_sent Sample.notifier_bad_gateway)
                           (interval_sec Sample.notifier_bad_gateway)
                      then set_last_sent Sample.t400 else id)
                       Sample.notifier_bad_gateway), [])
             /\ dispatches evs = [Dispatch args media]
             /\ delivers Sample.world_no_scheme [] args media n' r evs)
       /\ (elapsed Sample.t400 (last_sent Sample.notifier_bad_gateway)
             (interval_sec Sample.notifier_bad_gateway)
           || truthy Sample.plot
              && elapsed Sample.t400 (last_plot_sent Sample.notifier_bad_gateway)
                   (plot_interval_sec Sample.notifier_bad_gateway) = false ->
           r = Returned tt /\ n' = Sample.notifier_bad_gateway /\ evs = []).
Proof.
  split; [vm_compute; reflexivity|].
  apply (timestamps_advance_on_decision Sample.world_no_scheme
           Sample.notifier_bad_gateway [] Sample.t400 "epoch 9" Sample.plot).
  vm_compute; reflexivity.
Defined.

Section Sequences.

Variable w : world.

Lemma selftest_events_nil_probes evs :
  selftest_events evs = [] -> probes evs = [].
Proof.
  unfold selftest_events, probes.
  induction evs as [|e evs IH]; simpl; [auto|].
  destruct e; simpl; auto; discriminate.
Qed.

(** The invariant of the self-test along a sequence of calls, by
    induction on the sequence. *)
Lemma attempt_all_selftest cs : forall n tr,
  exists n' evs,
    attempt_all w cs (n, tr) = (n', tr ++ evs)
    /\ selftest_runs w cs (n, tr)
       = (if negb (_tested n) && some_dispatch evs then 1 else 0)%nat
    /\ (length (probes evs) <= 1)%nat
    /\ _tested n' = _tested n || some_dispatch evs
    /\ _cli_available n' = _cli_available n
    /\ (_tested n = true ->
        selftest_events evs = [] /\ _use_http n' = _use_http n).
Proof.
  induction cs as [|c cs IH]; intros n tr.
  - exists n, []. simpl. rewrite app_nil_r, andb_false_r, orb_false_r.
    repeat split; auto.
  - destruct (perform_spec w c n tr) as (r1 & n1 & e1 & E1 & H1).
    destruct (IH n1 (tr ++ e1)) as (n' & e2 & E2 & Hr & Hp & Ht & Hc & Hs).
    exists n', (e1 ++ e2).
    split.
    { simpl. rewrite E1. simpl. rewrite E2, List.app_assoc. reflexivity. }
    simpl selftest_runs. rewrite E1. simpl. rewrite Hr.
    destruct H1 as [(_ & -> & ->)|(_ & args & media & t1 & t2 & H1)].
    + simpl. rewrite Ht.
      destruct (_tested n), (some_dispatch e2); simpl in *; auto.
    + destruct H1 as (Hup & Ht1 & Hd & _ & Hp1 & _ & Hid).
      apply delivery_update_fields in Hup as Hf.
      destruct Hf as (_ & _ & _ & _ & _ & _ & _ & _ & Hcli).
      rewrite Ht1 in *. simpl in *.
      destruct (Hs eq_refl) as [Hs2 Hu2].
      assert (Hsd : some_dispatch (e1 ++ e2) = true).
      { unfold some_dispatch, dispatches in *.
        rewrite List.filter_app, Hd. reflexivity. }
      rewrite Hsd, andb_true_r, orb_true_r, Nat.add_0_r.
      split; [reflexivity|].
      split.
      { unfold probes in *. rewrite List.filter_app, length_app.
        fold (probes e2). rewrite (selftest_events_nil_probes e2 Hs2).
        simpl. lia. }
      split; [exact Ht|]. split; [congruence|].
      intros Htn. destruct (Hid Htn) as [-> Hs1].
      split; [|rewrite Hu2; reflexivity].
      unfold selftest_events in *. rewrite List.filter_app, Hs1, Hs2. reflexivity.
Qed.

(** C6.  The delivery self-test runs at most once in the life of a
    notifier.  Along any sequence of [send_now] and [maybe_send] calls,
    from any state, each call made whether or not the one before it
    raised: the flag [_tested] goes from untested to tested in at most
    one call, and in exactly one when the notifier starts untested and
    some call reaches the dispatcher; at most one probe is made; the flag
    is set afterwards exactly when it was set before or a dispatch
    happened; [_cli_available] never changes; and from a tested notifier
    no call probes or prints a diagnostic again, and [_use_http] stays as
    the self-test left it.  By [perform_all_prefix] this covers the caller
    that an exception ends. *)
Theorem selftest_at_most_once cs n tr :
  exists n' evs,
    attempt_all w cs (n, tr) = (n', tr ++ evs)
    /\ (selftest_runs w cs (n, tr) <= 1)%nat
    /\ selftest_runs w cs (n, tr)
       = (if negb (_tested n) && some_dispatch evs then 1 else 0)%nat
    /\ (length (probes evs) <= 1)%nat
    /\ _tested n' = _tested n || some_dispatch evs
    /\ _cli_available n' = _cli_available n
    /\ (_tested n = true ->
        selftest_events evs = [] /\ _use_http n' = _use_http n).
Proof.
  destruct (attempt_all_selftest cs n tr) as (n' & evs & E & Hr & H).
  exists n', evs. split; [exact E|]. split; [|split; [exact Hr|exact H]].
  rewrite Hr. destruct (negb (_tested n) && some_dispatch evs); lia.
Qed.

Lemma elapsed_true now last i :
  (inject_Z i <= now - last)%Q -> elapsed now last i = true.
Proof. intros H. unfold elapsed. apply Qle_bool_iff. exact H. Qed.

Lemma elapsed_false now last i :
  (now - last < inject_Z i)%Q -> elapsed now last i = false.
Proof.
  intros H. unfold elapsed.
  destruct (Qle_bool (inject_Z i) (now - last)) eqn:E; [|reflexivity].
  apply Qle_bool_iff in E. lra.
Qed.


End Sequences.



(** ** Delivery that fails *)

(** The send raises after a probe that succeeded: the call returns, one
    CLI invocation was attempted, and both timestamps are the current
    time. *)
Example flaky_cli_still_stamps :
  let r := maybe_send Sample.world_flaky Sample.t0 "first" Sample.plot
             (Sample.notifier, []) in
  r.1 = Returned tt
  /\ sends r.2.2 = [Cli (cmd_media Sample.notifier "first" Sample.plot)]
  /\ last_sent r.2.1 = Sample.t0
  /\ last_plot_sent r.2.1 = Sample.t0.
Proof. vm_compute. repeat split. Qed.

(** Neither delivery method is available: the dispatch is a silent no-op
    and the timestamps advance all the same. *)
Example offline_still_stamps :
  let n := __init__ Sample.world_offline Sample.environ_discord 0 None in
  let r := maybe_send Sample.world_offline Sample.t0 "first" Sample.plot (n, []) in
  r.1 = Returned tt
  /\ dispatches r.2.2 = [Dispatch (cmd_media n "first" Sample.plot) Sample.plot]
  /\ sends r.2.2 = []
  /\ selftest_events r.2.2 = [Diag WarnSilent]
  /\ last_sent r.2.1 = Sample.t0
  /\ last_plot_sent r.2.1 = Sample.t0.
Proof. vm_compute. repeat split. Qed.

(** The HTTP fallback is selected and the POST raises: the call returns,
    one POST was attempted, with the attachment of a file that exists,
    and the timestamps advance. *)
Example failed_post_still_stamps :
  let w :=
    {| shutil_which := fun _ => None;
       request_error := fun _ => None;
       subprocess_run := fun _ _ => Raised (Exception "FileNotFoundError");
       urlopen := fun _ _ => Raised (Exception "URLError");
       os_path_isfile := fun _ _ => true;
       os_path_abspath := fun p => p |} in
  let n := __init__ w Sample.environ_gateway 0 None in
  let r := maybe_send w Sample.t0 "first" Sample.plot (n, []) in
  r.1 = Returned tt
  /\ sends r.2.2
     = [Post {| req_url := "http://192.168.1.94:18789/api/v1/message/send";
                req_payload :=
                  [("channel", "discord"); ("target", "channel:123");
                   ("message", "first"); ("mediaPath", "/tmp/p.png")];
                req_headers :=
                  [("Content-Type", "application/json");
                   ("Authorization", "Bearer secret")] |}]
  /\ last_sent r.2.1 = Sample.t0
  /\ last_plot_sent r.2.1 = Sample.t0.
Proof. vm_compute. repeat split. Qed.

(** The HTTP fallback is selected and the request cannot be built: the
    call raises, nothing was sent, and the timestamps, set before the
    dispatch, have advanced. *)
Example raised_request_still_stamps :
  let r := maybe_send Sample.world_no_scheme Sample.t0 "first" Sample.plot
             (Sample.notifier_bad_gateway, []) in
  r.1 = Raised (Exception "ValueError")
  /\ dispatches r.2.2
     = [Dispatch (cmd_media Sample.notifier_bad_gateway "first" Sample.plot)
          Sample.plot]
  /\ sends r.2.2 = []
  /\ last_sent r.2.1 = Sample.t0
  /\ last_plot_sent r.2.1 = Sample.t0.
Proof. vm_compute. repeat split. Qed.

(** ** The process wrapper *)

Section WrapperProperties.

Variable w : world.
Variable child : list string -> Wrap.termination.
Variable describe : option string -> Z -> string.

(** C8.  The status of [wrap].  An empty command vector returns 1 at once
    and nothing happens: no dispatch, no self-test.  Otherwise [wrap]
    returns the status of the command's outcome, also when the
    notification raises, and what happens is exactly one call of
    [send_now], so at most one dispatch and, on a configured notifier,
    exactly one, with the send of the delivery path.  A normal exit maps
    to its exit code, a command that is not found to 127, termination by
    signal N to 128+N. *)
Theorem wrap_exit_status label n tr :
  Wrap.wrap w child describe [] label (n, tr) = (Returned 1%Z, (n, tr))
  /\ (forall a argv,
        let status := Wrap.exit_status (child (a :: argv)) in
        exists r n' evs,
          send_now w (describe label status) None (n, tr)
          = (r, (n', tr ++ evs))
          /\ Wrap.wrap w child describe (a :: argv) label (n, tr)
             = (Returned status, (n', tr ++ evs))
          /\ (length (dispatches evs) <= 1)%nat
          /\ (configured n = true ->
              dispatches evs
              = [Dispatch (cmd_text n (describe label status)) None]
              /\ delivers w tr (cmd_text n (describe label status)) None
                   n' r evs))
  /\ (forall code, Wrap.exit_status (Wrap.Exited code) = code)
  /\ Wrap.exit_status Wrap.NotFound = 127%Z
  /\ (forall signum,
        Wrap.exit_status (Wrap.Signaled signum) = (128 + signum)%Z).
Proof.
  split; [reflexivity|]. split; [|repeat split].
  intros a argv status.
  set (message := describe label status).
  assert (Hw : forall r st,
             send_now w message None (n, tr) = (r, st) ->
             Wrap.wrap w child describe (a :: argv) label (n, tr)
             = (Returned status, st)).
  { intros r st E. unfold Wrap.wrap, bind, try_except, ret.
    fold status. fold message. rewrite E. destruct r as [[]|exc]; reflexivity. }
  destruct (configured n) eqn:Hc.
  - destruct (send_now_spec w message None n tr Hc) as (r & n' & evs & E & H).
    exists r, n', evs. split; [exact E|]. split; [exact (Hw _ _ E)|].
    destruct H as (_ & _ & Hd & _ & _ & Hdel & _).
    rewrite Hd. simpl. split; [lia|]. intros _. split; [reflexivity|exact Hdel].
  - exists (Returned tt), n, [].
    pose proof (unconfigured_send_now w message None n tr Hc) as E.
    rewrite app_nil_r. split; [exact E|]. split; [exact (Hw _ _ E)|].
    split; [simpl; lia|discriminate].
Qed.

End WrapperProperties.

(** The cases of the test suite. *)
Example wrap_statuses :
  let run argv :=
    (Wrap.wrap Sample.world_cli Sample.child Sample.describe argv (Some "job")
       (Sample.notifier, [])).1 in
  run [] = Returned 1%Z
  /\ run ["echo"; "hi"] = Returned 0%Z
  /\ run ["false"] = Returned 42%Z
  /\ run ["nonexistent_cmd"] = Returned 127%Z
  /\ run ["train.py"] = Returned 137%Z.
Proof. vm_compute. repeat split. Qed.

(** The wrapper where the notification raises: the status of the command
    is returned all the same. *)
Example wrap_notification_raises :
  (send_now Sample.world_no_scheme (Sample.describe (Some "job") 42) None
     (Sample.notifier_bad_gateway, [])).1
  = Raised (Exception "ValueError")
  /\ (Wrap.wrap Sample.world_no_scheme Sample.child Sample.describe ["false"]
        (Some "job") (Sample.notifier_bad_gateway, [])).1
     = Returned 42%Z.
Proof. vm_compute. repeat split. Qed.

(** ** The channel classification *)

(** C9.  [_detect_channel_type] is a total function from an optional
    channel name to one of the three styles: telegram is table; discord,
    slack and whatsapp are rich; signal and imessage are plain; an absent
    channel and every other channel name are rich. *)
Theorem detect_channel_type_classification :
  Formatter._detect_channel_type (Some "telegram") = Formatter.table
  /\ Formatter._detect_channel_type (Some "discord") = Formatter.rich
  /\ Formatter._detect_channel_type (Some "slack") = Formatter.rich
  /\ Formatter._detect_channel_type (Some "whatsapp") = Formatter.rich
  /\ Formatter._detect_channel_type (Some "signal") = Formatter.plain
  /\ Formatter._detect_channel_type (Some "imessage") = Formatter.plain
  /\ Formatter._detect_channel_type None = Formatter.rich
  /\ (forall c,
        c <> "telegram" -> c <> "discord" -> c <> "slack" ->
        c <> "whatsapp" -> c <> "signal" -> c <> "imessage" ->
        Formatter._detect_channel_type (Some c) = Formatter.rich).
Proof.
  repeat (split; [vm_compute; reflexivity|]).
  intros c H1 H2 H3 H4 H5 H6.
  unfold Formatter._detect_channel_type, Formatter.channel_styles. simpl.
  rewrite !lookup_insert_ne by congruence.
  rewrite lookup_empty. reflexivity.
Qed.

(** * Further properties *)

(** ** The configuration resolver, from the environment *)

Section ResolverMore.

Variable w : world.

Lemma env_truthy (e : environ) name :
  truthy (_env e name None) = true <-> env_set e name.
Proof.
  unfold _env, truthy, env_set. destruct (e !! name) as [v|].
  - destruct (String.eqb v "") eqn:E.
    + apply String.eqb_eq in E. subst. split; [discriminate|].
      intros (v & [= <-] & Hv). congruence.
    + rewrite E. apply String.eqb_neq in E. split; eauto.
  - split; [discriminate|]. intros (v & H & _). discriminate.
Qed.

Lemma py_or_truthy x y : truthy (py_or x y) = truthy x || truthy y.
Proof. unfold py_or. destruct (truthy x) eqn:E; simpl; auto. Qed.

Lemma init_configured_env (e : environ) interval plot_interval :
  configured (__init__ w e interval plot_interval) = true <-> env_configured e.
Proof.
  unfold configured, env_configured, __init__. simpl.
  rewrite andb_true_iff, !py_or_truthy, !orb_true_iff, !env_truthy. tauto.
Qed.

(** X1.  The notifier built from the environment is configured exactly
    when the environment names a channel and a target, each through its
    own variable or through the default one, with a non-empty value. *)
Theorem init_configured_iff (e : environ) interval plot_interval :
  configured (__init__ w e interval plot_interval) = true <-> env_configured e.
Proof. apply init_configured_env. Qed.

(** X2.  Resolution order of the channel and of the target: a non-empty
    value of the progress variable wins over the default one, the default
    one is used when the progress variable is unset or empty, and the
    resolved value is never the empty string. *)
Theorem init_resolution_order (e : environ) interval plot_interval :
  let n := __init__ w e interval plot_interval in
  (forall c, e !! "OPENCLAW_PROGRESS_CHANNEL" = Some c -> c <> "" ->
             channel n = Some c)
  /\ (~ env_set e "OPENCLAW_PROGRESS_CHANNEL" ->
      channel n = _env e "OPENCLAW_DEFAULT_DM_CHANNEL" None)
  /\ (forall t, e !! "OPENCLAW_PROGRESS_TARGET" = Some t -> t <> "" ->
                target n = Some t)
  /\ (~ env_set e "OPENCLAW_PROGRESS_TARGET" ->
      target n = _env e "OPENCLAW_DEFAULT_DM_TARGET" None)
  /\ channel n <> Some "" /\ target n <> Some "".
Proof.
  assert (Hwin : forall a b v, e !! a = Some v -> v <> "" ->
            py_or (_env e a None) (_env e b None) = Some v).
  { intros a b v Hv Hne. unfold py_or, _env. rewrite Hv.
    apply String.eqb_neq in Hne. rewrite Hne. simpl. rewrite Hne. reflexivity. }
  assert (Hdef : forall a b, ~ env_set e a ->
            py_or (_env e a None) (_env e b None) = _env e b None).
  { intros a b Hn. unfold py_or.
    destruct (truthy (_env e a None)) eqn:E; [|reflexivity].
    apply env_truthy in E. contradiction. }
  assert (Hne : forall a b, py_or (_env e a None) (_env e b None) <> Some "").
  { intros a b. unfold py_or.
    assert (H0 : forall x, _env e x None <> Some "").
    { intros x. unfold _env. destruct (e !! x) as [v|]; [|discriminate].
      destruct (String.eqb v "") eqn:E; [discriminate|].
      apply String.eqb_neq in E. congruence. }
    destruct (truthy _); apply H0. }
  cbv zeta. unfold __init__. simpl.
  repeat split; eauto.
Qed.

End ResolverMore.

(** ** The message the HTTP path recovers *)

Lemma extract_message_skip pre rest :
  ~ In "--message" pre ->
  extract_message (pre ++ rest) = extract_message rest.
Proof.
  induction pre as [|a pre IH]; simpl; [reflexivity|].
  intros H. destruct (String.eqb a "--message") eqn:E.
  - apply String.eqb_eq in E. subst. tauto.
  - apply IH. tauto.
Qed.

(** X3.  The loop of [_send_message] that recovers the message from the
    argument vector returns the element after the first ["--message"];
    it returns the empty string when the only ["--message"] is the last
    element, and when there is none. *)
Theorem extract_message_first_flag :
  (forall pre m post,
      ~ In "--message" pre ->
      extract_message (pre ++ "--message" :: m :: post) = m)
  /\ (forall pre,
      ~ In "--message" pre -> extract_message (pre ++ ["--message"]) = "")
  /\ (forall args, ~ In "--message" args -> extract_message args = "").
Proof.
  split; [|split].
  - intros pre m post H. rewrite extract_message_skip by assumption.
    reflexivity.
  - intros pre H. rewrite extract_message_skip by assumption. reflexivity.
  - intros args H. rewrite <- (app_nil_r args).
    rewrite extract_message_skip by assumption. reflexivity.
Qed.

(** X4.  What the HTTP path posts as the message is the message of the
    call, for each of the argument vectors the entry points build,
    provided neither the channel nor the target is the string
    ["--message"]; with ["--message"] as the channel, it is ["--target"]
    whatever the message. *)
Theorem extract_message_of_commands n message plot :
  (str (channel n) <> "--message" -> str (target n) <> "--message" ->
   extract_message (cmd_text n message) = message
   /\ extract_message (cmd_media n message plot) = message
   /\ extract_message (cmd_text n message ++ ["--media"; str plot]) = message)
  /\ (channel n = Some "--message" ->
      extract_message (cmd_text n message) = "--target"
      /\ extract_message (cmd_media n message plot) = "--target").
Proof.
  split.
  - intros Hc Ht. unfold cmd_text, cmd_media. simpl.
    apply String.eqb_neq in Hc, Ht. rewrite Hc, Ht. auto.
  - intros Hc. unfold cmd_text, cmd_media. rewrite Hc. simpl. auto.
Qed.

(** ** The gateway URL *)

Lemma rstrip_slash_chars_spec cs :
  last (rstrip_slash_chars cs) <> Some "/"%char
  /\ exists k, cs = rstrip_slash_chars cs ++ List.repeat "/"%char k.
Proof.
  induction cs as [|c cs [IHl [k IHk]]]; simpl.
  - split; [discriminate|]. exists 0%nat. reflexivity.
  - destruct (rstrip_slash_chars cs) as [|d rest] eqn:E.
    + destruct (Ascii.eqb c "/") eqn:Ec.
      * apply Ascii.eqb_eq in Ec. subst c. split; [discriminate|].
        exists (S k). simpl. simpl in IHk. rewrite <- IHk. reflexivity.
      * split.
        { simpl. apply Ascii.eqb_neq in Ec. congruence. }
        exists k. simpl. simpl in IHk. rewrite <- IHk. reflexivity.
    + split.
      * change (last (c :: d :: rest)) with (last (d :: rest)). exact IHl.
      * exists k. simpl. rewrite IHk at 1. reflexivity.
Qed.

Lemma rstrip_slash_chars_app_slash cs :
  rstrip_slash_chars (cs ++ ["/"%char]) = rstrip_slash_chars cs.
Proof.
  induction cs as [|c cs IH]; simpl; [reflexivity|]. rewrite IH. reflexivity.
Qed.

Lemma list_ascii_of_string_app s t :
  list_ascii_of_string (s +:+ t)
  = list_ascii_of_string s ++ list_ascii_of_string t.
Proof. induction s as [|c s IH]; simpl; [reflexivity|]. rewrite IH. reflexivity. Qed.

(** X5.  [rstrip('/')] on the gateway URL removes exactly the trailing
    slashes: the result does not end with a slash, the URL is the result
    followed by slashes only, and one more trailing slash on the URL
    changes nothing. *)
Theorem rstrip_slash_spec s :
  ~ ends_with_slash (rstrip_slash s)
  /\ (exists k,
        list_ascii_of_string s
        = list_ascii_of_string (rstrip_slash s) ++ List.repeat "/"%char k)
  /\ rstrip_slash (s +:+ "/") = rstrip_slash s.
Proof.
  unfold ends_with_slash, rstrip_slash.
  rewrite list_ascii_of_string_of_list_ascii.
  destruct (rstrip_slash_chars_spec (list_ascii_of_string s)) as [Hl Hk].
  split; [exact Hl|]. split; [exact Hk|].
  rewrite list_ascii_of_string_app. simpl.
  rewrite rstrip_slash_chars_app_slash. reflexivity.
Qed.

(** ** The self-test *)

Section SelftestMore.

Variable w : world.

(** X6.  How the self-test selects the delivery path.  On a configured
    notifier that is not tested yet, [_selftest] makes the dry-run probe
    exactly when the CLI is installed; the CLI path is kept exactly when
    that probe returns status 0, and then nothing is printed; in every
    other case the HTTP path is selected and the last thing printed says
    whether the gateway is usable. *)
Theorem selftest_selects_path n tr :
  _tested n = false ->
  configured n = true ->
  _use_http n = false ->
  exists n' evs,
    _selftest w (n, tr) = (Returned tt, (n', tr ++ evs))
    /\ _tested n' = true
    /\ _use_http n' = negb (probe_ok w n tr)
    /\ probes evs = (if _cli_available n then [Probe (probe_args n)] else [])
    /\ (if probe_ok w n tr then evs = [Probe (probe_args n)]
        else last evs = Some (Diag (http_diag n))).
Proof.
  intros Ht Hc Hu. rewrite _selftest_eq.
  exists (selftest_outcome w n tr).1, (selftest_outcome w n tr).2.
  split; [reflexivity|].
  unfold selftest_outcome, probe_ok.
  rewrite Ht, (configured_guard n Hc).
  destruct (_cli_available n); simpl.
  - destruct (subprocess_run w tr (probe_args n)) as [r|exc]; simpl;
      [destruct (returncode r =? 0)%Z; simpl|]; auto.
  - auto.
Qed.

Lemma selftest_outcome_no_config_warning n tr :
  configured n = true ->
  ~ In (Diag WarnNoConfig) (selftest_outcome w n tr).2.
Proof.
  intros Hc. unfold selftest_outcome. rewrite (configured_guard n Hc).
  assert (Hd : Diag (http_diag n) <> Diag WarnNoConfig).
  { unfold http_diag. destruct (truthy _ && truthy _); discriminate. }
  assert (Hp : forall r, Diag (probe_diag n r) <> Diag WarnNoConfig).
  { intros r. unfold probe_diag. destruct (str_in _ _); discriminate. }
  destruct (_tested n); simpl; [tauto|].
  destruct (_cli_available n); simpl.
  - destruct (subprocess_run w tr (probe_args n)) as [r|exc]; simpl;
      [destruct (returncode r =? 0)%Z; simpl|];
      intros H; repeat (destruct H as [H|H]; try discriminate H);
      try (eapply Hd; eassumption); try (eapply Hp; eassumption); auto.
  - intros [H|[]]. eapply Hd; eassumption.
Qed.

(** A call does nothing, or is the dispatcher run on the configured
    notifier with some timestamps renewed. *)
Lemma perform_shape c n tr :
  perform w c (n, tr) = (Returned tt, (n, tr))
  \/ (configured n = true
      /\ exists t1 t2 args media,
           perform w c (n, tr)
           = _send_message w args media (retime t1 t2 n, tr)).
Proof.
  destruct (configured n) eqn:Hc.
  - destruct c as [message plot|now message plot]; simpl.
    + right. split; [reflexivity|].
      exists (last_sent n), (last_plot_sent n). rewrite retime_id.
      rewrite send_now_unfold by assumption. eauto.
    + rewrite maybe_send_unfold by assumption. cbv zeta.
      destruct (elapsed now (last_sent n) (interval_sec n)),
        (truthy plot && elapsed now (last_plot_sent n) (plot_interval_sec n));
        simpl; auto; right; (split; [reflexivity|]).
      * exists now, now. eauto.
      * exists now, (last_plot_sent n).
        replace (retime now (last_plot_sent n) n) with (set_last_sent now n)
          by (destruct n; reflexivity). eauto.
      * exists (last_sent n), now.
        replace (retime (last_sent n) now n) with (set_last_plot_sent now n)
          by (destruct n; reflexivity). eauto.
  - left. destruct c; simpl;
      [apply unconfigured_send_now | apply unconfigured_maybe_send]; assumption.
Qed.

Lemma delivery_no_diag n tr args media d :
  ~ In (Diag d) (delivery w n tr args media).2.
Proof.
  unfold delivery.
  destruct (_use_http n);
    [destruct (truthy _ && truthy _); [destruct (request_error w _)|]|];
    simpl; intros H; repeat (destruct H as [H|H]; try discriminate H); auto.
Qed.

(** X7.  The warning "No channel/target configured" of [_selftest] is
    never printed by [send_now] or [maybe_send]: they return before the
    dispatcher when the channel or the target is missing, so the branch of
    [_selftest] that prints it is not reached through them, in any
    sequence of calls, each made whether or not the one before it
    raised. *)
Theorem no_config_warning_unreachable cs : forall n tr,
  exists n' evs,
    attempt_all w cs (n, tr) = (n', tr ++ evs)
    /\ ~ In (Diag WarnNoConfig) evs.
Proof.
  induction cs as [|c cs IH]; intros n tr.
  - exists n, []. simpl. rewrite app_nil_r. auto.
  - simpl.
    destruct (perform_shape c n tr)
      as [E|(Hc & t1 & t2 & args & media & E)]; rewrite E.
    + apply IH.
    + rewrite _send_message_eq. cbv zeta.
      set (tr0 := tr ++ [Dispatch args media]).
      set (so := selftest_outcome w (retime t1 t2 n) tr0).
      set (tr1 := tr0 ++ so.2).
      set (d := delivery w so.1 tr1 args media).
      destruct (IH so.1 (tr1 ++ d.2)) as (n' & evs & E2 & Hn).
      exists n', (Dispatch args media :: so.2 ++ d.2 ++ evs).
      split.
      { simpl. rewrite E2. unfold tr1, tr0. rewrite <- !List.app_assoc.
        reflexivity. }
      intros [H|H]; [discriminate|].
      apply in_app_or in H as [H|H].
      { revert H. apply selftest_outcome_no_config_warning. exact Hc. }
      apply in_app_or in H as [H|H]; [|contradiction].
      revert H. apply delivery_no_diag.
Qed.

End SelftestMore.

(** ** The delivery path after the self-test *)

Section DeliveryMore.

Variable w : world.


(** X9.  What the HTTP path posts for [send_now].  On a tested notifier
    with the HTTP path selected, a gateway URL and a token, the request
    is built for the gateway URL without its trailing slashes followed by
    [/api/v1/message/send], with the bearer token; its payload is the
    channel, the target and the message, and the absolute media path
    exactly when a plot path is given and is a file on disk: an attachment
    that is not there is dropped and the message still goes out.  When
    the constructor accepts the request, it is posted, once, and the call
    returns whatever the POST does; when the constructor raises, nothing
    is posted and the call raises that exception.  (The message is the
    one of the call as long as neither the channel nor the target is the
    string ["--message"].) *)
Theorem send_now_http_request n tr message plot :
  configured n = true ->
  _tested n = true ->
  _use_http n = true ->
  truthy (gateway_url n) = true ->
  truthy (gateway_token n) = true ->
  str (channel n) <> "--message" ->
  str (target n) <> "--message" ->
  let cmd :=
    cmd_text n message ++ (if truthy plot then ["--media"; str plot] else []) in
  let tr1 := tr ++ [Dispatch cmd plot] in
  let req :=
    {| req_url :=
         rstrip_slash (str (gateway_url n)) +:+ "/api/v1/message/send";
       req_payload :=
         [("channel", str (channel n)); ("target", str (target n));
          ("message", message)]
         ++ (if truthy plot && os_path_isfile w tr1 (str plot)
             then [("mediaPath", os_path_abspath w (str plot))]
             else []);
       req_headers :=
         [("Content-Type", "application/json");
          ("Authorization", "Bearer " +:+ str (gateway_token n))] |} in
  send_now w message plot (n, tr)
  = match request_error w req with
    | None => (Returned tt, (n, tr1 ++ [Post req]))
    | Some exc => (Raised exc, (n, tr1))
    end.
Proof.
  intros Hc Ht Hu Hg Hk Hch Htg. cbv zeta.
  pose proof (extract_message_cmd_send_now n message plot Hch Htg) as Hm.
  rewrite send_now_unfold by assumption.
  remember (cmd_text n message
            ++ (if truthy plot then ["--media"; str plot] else []))
    as cmd eqn:Ecmd in *.
  rewrite _send_message_eq. cbv zeta.
  unfold selftest_outcome. rewrite Ht. simpl fst. simpl snd.
  rewrite app_nil_r. unfold delivery. rewrite Hu, Hg, Hk. simpl andb. cbv iota.
  unfold gateway_request. rewrite Hm.
  destruct (request_error w _); simpl; [rewrite app_nil_r|]; reflexivity.
Qed.

End DeliveryMore.


Lemma send_now_http_request_witness :
  (configured SampleMain.notifier_http = true
   /\ _tested SampleMain.notifier_http = true
   /\ _use_http SampleMain.notifier_http = true
   /\ truthy (gateway_url SampleMain.notifier_http) = true
   /\ truthy (gateway_token SampleMain.notifier_http) = true
   /\ str (channel SampleMain.notifier_http) <> "--message"
   /\ str (target SampleMain.notifier_http) <> "--message")
  /\ send_now Sample.world_offline "done" Sample.plot
       (SampleMain.notifier_http, [])
     = (Returned tt,
        (SampleMain.notifier_http,
         [Dispatch
            ["openclaw"; "message"; "send"; "--channel"; "discord";
             "--target"; "channel:123"; "--message"; "done";
             "--media"; "/tmp/p.png"]
            Sample.plot;
          Post
            {| req_url := "http://192.168.1.94:18789/api/v1/message/send";
               req_payload :=
                 [("channel", "discord"); ("target", "channel:123");
                  ("message", "done")];
               req_headers :=
                 [("Content-Type", "application/json");
                  ("Authorization", "Bearer secret")] |}])).
Proof.
  assert (H : configured SampleMain.notifier_http = true
              /\ _tested SampleMain.notifier_http = true
              /\ _use_http SampleMain.notifier_http = true
              /\ truthy (gateway_url SampleMain.notifier_http) = true
              /\ truthy (gateway_token SampleMain.notifier_http) = true
              /\ str (channel SampleMain.notifier_http) <> "--message"
              /\ str (target SampleMain.notifier_http) <> "--message").
  { vm_compute. repeat split; discriminate. }
  split; [exact H|].
  destruct H as (H1 & H2 & H3 & H4 & H5 & H6 & H7).
  rewrite (send_now_http_request Sample.world_offline SampleMain.notifier_http
             [] "done" Sample.plot H1 H2 H3 H4 H5 H6 H7).
  vm_compute. reflexivity.
Defined.

(** The same call where the gateway is named without its scheme: the
    request is refused, nothing is posted and the call raises. *)
Example send_now_http_request_refused :
  send_now Sample.world_no_scheme "done" None
    (set_use_http true (set_tested true Sample.notifier_bad_gateway), [])
  = (Raised (Exception "ValueError"),
     (set_use_http true (set_tested true Sample.notifier_bad_gateway),
      [Dispatch
         ["openclaw"; "message"; "send"; "--channel"; "discord";
          "--target"; "channel:123"; "--message"; "done"]
         None])).
Proof. vm_compute. reflexivity. Qed.

(** ** Throttling over several calls *)

Section ThrottleMore.

Variable w : world.

Lemma quiet_call_does_nothing c n tr :
  quiet n c = true -> perform w c (n, tr) = (Returned tt, (n, tr)).
Proof.
  destruct c as [message plot|now message plot]; simpl; [discriminate|].
  intros [Ht Hp]%andb_prop.
  apply negb_true_iff in Ht, Hp.
  destruct (configured n) eqn:Hc.
  - rewrite maybe_send_unfold by assumption. cbv zeta. rewrite Ht, Hp.
    reflexivity.
  - apply unconfigured_maybe_send. assumption.
Qed.

Lemma quiet_calls_noop cs n tr :
  forallb (quiet n) cs = true ->
  perform_all w cs (n, tr) = (Returned tt, (n, tr)).
Proof.
  induction cs as [|c cs IH]; simpl; [reflexivity|].
  intros [Hc Hcs]%andb_prop. unfold bind.
  rewrite (quiet_call_does_nothing c n tr Hc). apply IH. exact Hcs.
Qed.

Lemma quiet_calls_attempt cs n tr :
  forallb (quiet n) cs = true -> attempt_all w cs (n, tr) = (n, tr).
Proof.
  induction cs as [|c cs IH]; simpl; [reflexivity|].
  intros [Hc Hcs]%andb_prop.
  rewrite (quiet_call_does_nothing c n tr Hc). apply IH. exact Hcs.
Qed.

(** X10.  Inside the throttle window nothing happens, however many calls
    are made: [maybe_send] calls for which neither the text nor the plot
    is due leave the notifier and the trace exactly as they were. *)
Theorem quiet_calls_do_nothing cs n tr :
  forallb (quiet n) cs = true ->
  perform_all w cs (n, tr) = (Returned tt, (n, tr)).
Proof. apply quiet_calls_noop. Qed.

Lemma quiet_text_window n now1 later :
  last_sent n = now1 ->
  Forall (fun c : Q * string =>
            (c.1 - now1 < inject_Z (interval_sec n))%Q) later ->
  forallb (quiet n)
    (map (fun c : Q * string => MaybeSend c.1 c.2 None) later) = true.
Proof.
  intros Hl. induction 1 as [|[now msg] later H _ IH]; simpl; [reflexivity|].
  rewrite IH, andb_true_r. simpl in H.
  rewrite Hl, (elapsed_false now now1 _ H). reflexivity.
Qed.

(** X11.  The text interval is respected: after a [maybe_send] that
    sends the text at [now1], any number of text-only [maybe_send] calls
    less than [interval_sec] seconds after [now1] send nothing, also when
    the first call raised; the whole sequence makes exactly one dispatch
    and at most one send. *)
Theorem text_sent_once_per_window n tr now1 msg1 (later : list (Q * string)) :
  configured n = true ->
  elapsed now1 (last_sent n) (interval_sec n) = true ->
  Forall (fun c : Q * string =>
            (c.1 - now1 < inject_Z (interval_sec n))%Q) later ->
  exists r n' evs,
    maybe_send w now1 msg1 None (n, tr) = (r, (n', tr ++ evs))
    /\ attempt_all w
         (MaybeSend now1 msg1 None
          :: map (fun c : Q * string => MaybeSend c.1 c.2 None) later)
         (n, tr)
       = (n', tr ++ evs)
    /\ dispatches evs = [Dispatch (cmd_text n msg1) None]
    /\ delivers w tr (cmd_text n msg1) None n' r evs
    /\ (length (sends evs) <= 1)%nat
    /\ last_sent n' = now1.
Proof.
  intros Hc Ht Hl.
  destruct (maybe_send_spec w now1 msg1 None n tr Hc)
    as (r & n1 & e1 & E1 & H1).
  cbv zeta in H1. rewrite Ht in H1. simpl in H1.
  destruct H1 as (Hup & _ & Hd & Hs & _ & Hdel & _).
  apply delivery_update_fields in Hup.
  destruct Hup as (Hi & _ & Hls & _). simpl in Hls.
  exists r, n1, e1. split; [exact E1|]. split; [|auto 10].
  simpl. rewrite E1. simpl.
  apply quiet_calls_attempt, (quiet_text_window n1 now1); [exact Hls|].
  rewrite Hi. exact Hl.
Qed.

(** X12.  With a text interval of 0 nothing is suppressed: on a
    configured notifier whose clock never goes back, every call, be it
    [send_now] or [maybe_send], makes exactly one dispatch, each call
    made whether or not the one before it raised; and there are no more
    sends than calls. *)
Theorem zero_interval_never_suppresses cs : forall n tr,
  configured n = true ->
  interval_sec n = 0%Z ->
  clock_from (last_sent n) cs ->
  exists n' evs,
    attempt_all w cs (n, tr) = (n', tr ++ evs)
    /\ length (dispatches evs) = length cs
    /\ (length (sends evs) <= length cs)%nat.
Proof.
  induction cs as [|c cs IH]; intros n tr Hc Hi Hk.
  - exists n, []. simpl. rewrite app_nil_r. auto.
  - assert (Hstep : exists r1 n1 e1,
              perform w c (n, tr) = (r1, (n1, tr ++ e1))
              /\ length (dispatches e1) = 1%nat
              /\ (length (sends e1) <= 1)%nat
              /\ configured n1 = true /\ interval_sec n1 = 0%Z
              /\ clock_from (last_sent n1) cs).
    { destruct c as [message plot|now message plot]; simpl in Hk |- *.
      - destruct (send_now_spec w message plot n tr Hc)
          as (r1 & n1 & e1 & E & H).
        exists r1, n1, e1. split; [exact E|].
        destruct H as (Hup & _ & Hd & Hs & _).
        apply delivery_update_fields in Hup.
        destruct Hup as (Hi1 & _ & Hl1 & _ & Hch & Htg & _).
        rewrite Hd, Hi1, Hl1. unfold configured in *. rewrite Hch, Htg.
        repeat split; auto.
      - destruct Hk as [Hle Hk].
        destruct (maybe_send_spec w now message plot n tr Hc)
          as (r1 & n1 & e1 & E & H).
        exists r1, n1, e1. split; [exact E|]. cbv zeta in H.
        rewrite Hi in H.
        rewrite (elapsed_true now (last_sent n) 0) in H
          by (change (inject_Z 0) with 0%Q; lra).
        destruct (truthy plot
                  && elapsed now (last_plot_sent n) (plot_interval_sec n));
          simpl in H; destruct H as (Hup & _ & Hd & Hs & _);
          apply delivery_update_fields in Hup;
          destruct Hup as (Hi1 & _ & Hl1 & _ & Hch & Htg & _);
          simpl in *; rewrite Hd, Hi1, Hl1; unfold configured in *;
          rewrite Hch, Htg; repeat split; auto. }
    destruct Hstep as (r1 & n1 & e1 & E1 & Hd1 & Hs1 & Hc1 & Hi1 & Hk1).
    destruct (IH n1 (tr ++ e1) Hc1 Hi1 Hk1) as (n' & e2 & E2 & Hd2 & Hs2).
    exists n', (e1 ++ e2). split.
    + simpl. rewrite E1. simpl. rewrite E2, List.app_assoc. reflexivity.
    + unfold dispatches, sends in *.
      rewrite !List.filter_app, !length_app, Hd1, Hd2. simpl. split; lia.
Qed.

(** X13.  [send_now] leaves the throttle alone: a [maybe_send] that
    follows a [send_now], whether or not that one raised, takes the
    decision it would have taken without it.  The timestamps after the
    two calls are those of the [maybe_send] on the notifier as it was
    before, and there is one dispatch for the [send_now] and one more
    exactly when the text or the plot was due. *)
Theorem send_now_leaves_throttle_alone n tr message0 plot0 now message plot :
  configured n = true ->
  let send_text := elapsed now (last_sent n) (interval_sec n) in
  let send_plot :=
    truthy plot && elapsed now (last_plot_sent n) (plot_interval_sec n) in
  exists n' evs,
    attempt_all w [SendNow message0 plot0; MaybeSend now message plot] (n, tr)
    = (n', tr ++ evs)
    /\ last_sent n' = (if send_text then now else last_sent n)
    /\ last_plot_sent n' = (if send_plot then now else last_plot_sent n)
    /\ length (dispatches evs)
       = (1 + (if send_text || send_plot then 1 else 0))%nat.
Proof.
  intros Hc. cbv zeta.
  destruct (send_now_spec w message0 plot0 n tr Hc)
    as (r1 & n1 & e1 & E1 & H1).
  destruct H1 as (Hup1 & _ & Hd1 & _).
  assert (Hc1 : configured n1 = true)
    by (rewrite (delivery_update_configured _ _ Hup1); exact Hc).
  apply delivery_update_fields in Hup1.
  destruct Hup1 as (Hi & Hpi & Hl & Hlp & Hch & Htg & _).
  destruct (maybe_send_spec w now message plot n1 (tr ++ e1) Hc1)
    as (r2 & n2 & e2 & E2 & H2).
  cbv zeta in H2. rewrite Hi, Hpi, Hl, Hlp in H2.
  exists n2, (e1 ++ e2). split.
  { simpl. rewrite E1. simpl. rewrite E2, List.app_assoc. reflexivity. }
  unfold dispatches in *. rewrite List.filter_app, length_app, Hd1.
  destruct (elapsed now (last_sent n) (interval_sec n)),
    (truthy plot && elapsed now (last_plot_sent n) (plot_interval_sec n));
    simpl in H2 |- *.
  4: { destruct H2 as (_ & -> & ->). auto. }
  all: destruct H2 as (Hup & _ & Hd & _);
         apply delivery_update_fields in Hup;
         destruct Hup as (_ & _ & Hl2 & Hlp2 & _);
         simpl in Hl2, Hlp2; unfold dispatches in Hd;
         rewrite Hd, Hl2, Hlp2; auto.
Qed.

(** X14.  A plot send does not throttle the text.  When a [maybe_send]
    sends the plot while the text is not due, the message goes out with
    the plot and [last_sent] stays; a later [maybe_send] at which the
    text interval, counted from the old [last_sent], has elapsed sends
    the text again, however soon after the plot send, and whether or not
    that one raised. *)
Theorem plot_send_does_not_throttle_text n tr now1 now2 message plot :
  configured n = true ->
  truthy plot = true ->
  elapsed now1 (last_plot_sent n) (plot_interval_sec n) = true ->
  elapsed now1 (last_sent n) (interval_sec n) = false ->
  elapsed now2 (last_sent n) (interval_sec n) = true ->
  (now2 - now1 < inject_Z (plot_interval_sec n))%Q ->
  exists n' evs,
    attempt_all w [MaybeSend now1 message plot; MaybeSend now2 message plot]
      (n, tr)
    = (n', tr ++ evs)
    /\ dispatches evs
       = [Dispatch (cmd_media n message plot) plot;
          Dispatch (cmd_text n message) None]
    /\ last_sent n' = now2
    /\ last_plot_sent n' = now1.
Proof.
  intros Hc Hp Hpl1 Ht1 Ht2 Hnear.
  destruct (maybe_send_spec w now1 message plot n tr Hc)
    as (r1 & n1 & e1 & E1 & H1).
  cbv zeta in H1. rewrite Ht1, Hp, Hpl1 in H1. simpl in H1.
  destruct H1 as (Hup & _ & Hd1 & _).
  assert (Hc1 : configured n1 = true)
    by (rewrite (delivery_update_configured _ _ Hup); exact Hc).
  apply delivery_update_fields in Hup.
  destruct Hup as (Hi & Hpi & Hl & Hlp & Hch & Htg & _). simpl in *.
  destruct (maybe_send_spec w now2 message plot n1 (tr ++ e1) Hc1)
    as (r2 & n2 & e2 & E2 & H2).
  cbv zeta in H2. rewrite Hi, Hpi, Hl, Hlp, Ht2, Hp in H2.
  rewrite (elapsed_false now2 now1 _ Hnear) in H2. simpl in H2.
  destruct H2 as (Hup2 & _ & Hd2 & _).
  apply delivery_update_fields in Hup2.
  destruct Hup2 as (_ & _ & Hl2 & Hlp2 & _). simpl in Hl2, Hlp2.
  exists n2, (e1 ++ e2). split.
  { simpl. rewrite E1. simpl. rewrite E2, List.app_assoc. reflexivity. }
  split; [|split; [exact Hl2|congruence]].
  unfold dispatches in *. rewrite List.filter_app, Hd1, Hd2.
  unfold cmd_text. rewrite Hch, Htg. reflexivity.
Qed.

End ThrottleMore.

(** ** The command line *)

Lemma list_index_app x pre post :
  ~ In x pre -> list_index x (pre ++ x :: post) = Some (length pre).
Proof.
  induction pre as [|y pre IH]; simpl; intros H.
  - rewrite String.eqb_refl. reflexivity.
  - destruct (String.eqb y x) eqn:E.
    + apply String.eqb_eq in E. tauto.
    + rewrite IH by tauto. reflexivity.
Qed.

Lemma list_index_none x xs : ~ In x xs -> list_index x xs = None.
Proof.
  induction xs as [|y xs IH]; simpl; intros H; [reflexivity|].
  destruct (String.eqb y x) eqn:E.
  - apply String.eqb_eq in E. tauto.
  - rewrite IH by tauto. reflexivity.
Qed.

Lemma list_index_split x xs i :
  list_index x xs = Some i ->
  exists pre post, xs = pre ++ x :: post /\ ~ In x pre /\ length pre = i.
Proof.
  revert i. induction xs as [|y xs IH]; simpl; intros i H; [discriminate|].
  destruct (String.eqb y x) eqn:E.
  - apply String.eqb_eq in E. injection H as <-. subst y.
    exists [], xs. auto.
  - destruct (list_index x xs) as [j|]; [|discriminate].
    injection H as <-.
    destruct (IH j eq_refl) as (pre & post & -> & Hn & Hl).
    exists (y :: pre), post. simpl. apply String.eqb_neq in E.
    repeat split; [|lia]. intros [H|H]; [congruence|tauto].
Qed.

Section MainMore.

Variable w : world.
Variable py_int : string -> outcome Z.

Lemma main_send_no_exit e now message plot line code :
  main_send w py_int e now message plot <> SysExit line code.
Proof.
  unfold main_send. destruct (main_interval py_int e); [|discriminate].
  destruct (main_plot_interval py_int e); discriminate.
Qed.

Lemma main_short e now argv :
  (length argv < 2)%nat -> main w py_int e now argv = SysExit usage_line 1.
Proof.
  intros H. unfold main. apply Nat.ltb_lt in H. rewrite H. reflexivity.
Qed.

Lemma main_plot_last e now prog pre :
  ~ In "--plot" pre ->
  main w py_int e now (prog :: pre ++ ["--plot"])
  = SysExit "--plot requires a file path" 1.
Proof.
  intros H. unfold main.
  replace (length (prog :: pre ++ ["--plot"]) <? 2)%nat with false
    by (symmetry; apply Nat.ltb_ge; simpl; rewrite length_app; simpl; lia).
  cbv beta iota zeta. simpl drop. rewrite !drop_0.
  rewrite list_index_app by assumption.
  cbv beta iota.
  replace (length (pre ++ ["--plot"]) <=? length pre + 1)%nat with true
    by (symmetry; apply Nat.leb_le; rewrite length_app; simpl; lia).
  reflexivity.
Qed.

Lemma main_with_plot e now prog pre p post :
  ~ In "--plot" pre ->
  main w py_int e now (prog :: pre ++ "--plot" :: p :: post)
  = main_send w py_int e now (String.concat " " (pre ++ post)) (Some p).
Proof.
  intros H. unfold main.
  replace (length (prog :: pre ++ "--plot" :: p :: post) <? 2)%nat with false
    by (symmetry; apply Nat.ltb_ge; simpl; rewrite length_app; simpl; lia).
  cbv beta iota zeta. simpl drop. rewrite !drop_0.
  rewrite list_index_app by assumption.
  cbv beta iota.
  replace (length (pre ++ "--plot" :: p :: post) <=? length pre + 1)%nat
    with false
    by (symmetry; apply Nat.leb_gt; rewrite length_app; simpl; lia).
  cbv beta iota. rewrite take_app_length.
  assert (Hl : (pre ++ "--plot" :: p :: post) !! (length pre + 1)%nat = Some p).
  { replace (pre ++ "--plot" :: p :: post)
      with ((pre ++ ["--plot"]) ++ p :: post)
      by (rewrite <- List.app_assoc; reflexivity).
    apply list_lookup_middle. rewrite length_app. simpl. lia. }
  rewrite Hl, drop_app_add. reflexivity.
Qed.

Lemma main_without_plot e now prog a args :
  ~ In "--plot" (a :: args) ->
  main w py_int e now (prog :: a :: args)
  = main_send w py_int e now (String.concat " " (a :: args)) None.
Proof.
  intros H. unfold main. simpl length. simpl drop.
  change (2 + length args <? 2)%nat with false. cbv beta iota zeta.
  rewrite list_index_none by assumption. reflexivity.
Qed.

(** Every argument vector is of one of the four shapes. *)
Lemma argv_shapes (argv : list string) :
  (length argv < 2)%nat
  \/ (exists prog pre, argv = prog :: pre ++ ["--plot"] /\ ~ In "--plot" pre)
  \/ (exists prog pre p post,
        argv = prog :: pre ++ "--plot" :: p :: post /\ ~ In "--plot" pre)
  \/ (exists prog a args,
        argv = prog :: a :: args /\ ~ In "--plot" (a :: args)).
Proof.
  destruct argv as [|prog [|a args]]; [left; simpl; lia..|]. right.
  destruct (list_index "--plot" (a :: args)) as [idx|] eqn:Ei.
  - destruct (list_index_split _ _ _ Ei) as (pre & post & E & Hn & _).
    rewrite E. destruct post as [|p post]; [left|right; left]; eauto 10.
  - right. right. exists prog, a, args. split; [reflexivity|].
    intros Hin. clear -Ei Hin.
    induction (a :: args) as [|y l IH]; [contradiction|].
    simpl in Ei. destruct (String.eqb y "--plot") eqn:E; [discriminate|].
    destruct (list_index "--plot" l); [discriminate|].
    apply String.eqb_neq in E. destruct Hin; [congruence|auto].
Qed.

(** X15.  The usage errors of [main].  It exits through [sys.exit], and
    then with status 1 and before anything is sent, exactly when no
    argument is given or the first ["--plot"] is the last argument. *)
Theorem main_usage_errors e now argv :
  ((exists line code, main w py_int e now argv = SysExit line code)
   <-> (length argv < 2)%nat
       \/ exists prog pre,
            argv = prog :: pre ++ ["--plot"] /\ ~ In "--plot" pre)
  /\ (forall line code, main w py_int e now argv = SysExit line code ->
                        code = 1%Z).
Proof.
  destruct (argv_shapes argv)
    as [H|[(prog & pre & -> & H)|[(prog & pre & p & post & -> & H)
       |(prog & a & args & -> & H)]]].
  - rewrite main_short by assumption. split; [split; eauto|].
    intros ? ? [= _ <-]. reflexivity.
  - rewrite main_plot_last by assumption. split; [split; eauto 10|].
    intros ? ? [= _ <-]. reflexivity.
  - rewrite main_with_plot by assumption. split.
    + split.
      * intros (line & code & E). exfalso. revert E. apply main_send_no_exit.
      * intros [Hl|(prog' & pre' & [= _ E] & Hn)].
        { simpl in Hl. rewrite length_app in Hl. simpl in Hl. lia. }
        exfalso.
        assert (Hi : list_index "--plot" (pre ++ "--plot" :: p :: post)
                     = Some (length pre)) by (apply list_index_app; exact H).
        rewrite E, list_index_app in Hi by assumption.
        injection Hi as Hi. apply (f_equal (@length string)) in E.
        rewrite !length_app in E. simpl in E. lia.
    + intros line code E. exfalso. revert E. apply main_send_no_exit.
  - rewrite main_without_plot by assumption. split.
    + split.
      * intros (line & code & E). exfalso. revert E. apply main_send_no_exit.
      * intros [Hl|(prog' & pre' & [= _ E] & Hn)]; [simpl in Hl; lia|].
        exfalso. apply H. rewrite E. apply in_or_app. right. left. reflexivity.
    + intros line code E. exfalso. revert E. apply main_send_no_exit.
Qed.

Lemma init_configured (e : environ) interval plot_interval :
  env_configured e -> configured (__init__ w e interval plot_interval) = true.
Proof. apply init_configured_env. Qed.

(** X16.  How [main] reads its arguments.  Provided both intervals of the
    environment are integers, the first ["--plot"] and the argument after
    it are cut out: the latter is the plot path, and the message is the
    other arguments joined by single spaces, those after the plot path
    too, a second ["--plot"] among them; without ["--plot"] every
    argument is part of the message and there is no plot.  The notifier
    is a fresh one, and [maybe_send] is called once. *)
Theorem main_reads_arguments e now interval plot_interval :
  main_interval py_int e = Returned interval ->
  main_plot_interval py_int e = Returned plot_interval ->
  (forall prog pre p post,
      ~ In "--plot" pre ->
      main w py_int e now (prog :: pre ++ "--plot" :: p :: post)
      = Completed
          (maybe_send w now (String.concat " " (pre ++ post)) (Some p)
             (__init__ w e interval (Some plot_interval), [])))
  /\ (forall prog a args,
      ~ In "--plot" (a :: args) ->
      main w py_int e now (prog :: a :: args)
      = Completed
          (maybe_send w now (String.concat " " (a :: args)) None
             (__init__ w e interval (Some plot_interval), []))).
Proof.
  intros Hi Hp. split; intros.
  - rewrite main_with_plot by assumption. unfold main_send.
    rewrite Hi, Hp. reflexivity.
  - rewrite main_without_plot by assumption. unfold main_send.
    rewrite Hi, Hp. reflexivity.
Qed.

(** X17.  The command line is not throttled across runs: the notifier of
    [main] is fresh, so with a channel and a target in the environment
    and a clock that reads at least the text interval, every run that
    gets as far as [maybe_send] makes exactly one dispatch, at most one
    send, and stamps the text with the current time.  The run ends
    normally where the request constructor accepts every request; an
    exception that ends it comes from the HTTP path with a gateway URL
    and a token, and then nothing was sent. *)
Theorem main_always_sends e now argv interval r :
  env_configured e ->
  main_interval py_int e = Returned interval ->
  (inject_Z interval <= now)%Q ->
  main w py_int e now argv = Completed r ->
  exists o n' evs,
    r = (o, (n', evs))
    /\ length (dispatches evs) = 1%nat
    /\ (length (sends evs) <= 1)%nat
    /\ last_sent n' = now
    /\ ((forall req, request_error w req = None) -> o = Returned tt)
    /\ (forall exc, o = Raised exc ->
        sends evs = [] /\ delivery_enabled n' = true /\ _use_http n' = true).
Proof.
  intros He Hi Hnow Hm.
  assert (Hs : exists message plot,
             main_send w py_int e now message plot = Completed r).
  { destruct (argv_shapes argv)
      as [H|[(prog & pre & -> & H)|[(prog & pre & p & post & -> & H)
         |(prog & a & args & -> & H)]]].
    - rewrite main_short in Hm by assumption. discriminate.
    - rewrite main_plot_last in Hm by assumption. discriminate.
    - rewrite main_with_plot in Hm by assumption. eauto.
    - rewrite main_without_plot in Hm by assumption. eauto. }
  destruct Hs as (message & plot & Hs). unfold main_send in Hs.
  rewrite Hi in Hs.
  destruct (main_plot_interval py_int e) as [pi|]; [|discriminate].
  injection Hs as <-.
  set (n := __init__ w e interval (Some pi)).
  assert (Hc : configured n = true) by (apply init_configured; exact He).
  destruct (maybe_send_spec w now message plot n [] Hc)
    as (o & n' & evs & E & H).
  exists o, n', evs. split; [exact E|]. cbv zeta in H.
  rewrite (elapsed_true now (last_sent n) (interval_sec n)) in H
    by (simpl; unfold Qminus; simpl; lra).
  destruct (truthy plot && elapsed now (last_plot_sent n) (plot_interval_sec n));
    simpl in H; destruct H as (Hup & _ & Hd & Hsn & _ & Hdel & _);
    apply delivery_update_fields in Hup;
    destruct Hup as (_ & _ & Hl & _);
    destruct (delivers_cases w _ _ _ _ _ _ Hdel) as (_ & _ & Hr & _);
    rewrite Hd;
    (split; [reflexivity|]); (split; [exact Hsn|]); (split; [exact Hl|]);
    (split; [intros Hreq; eapply delivers_returns; eassumption|exact Hr]).
Qed.

(** X18.  The intervals of [main].  The text interval is read from
    [OPENCLAW_PROGRESS_INTERVAL_SEC], or is 300 when that is unset or
    empty; the plot interval is read from
    [OPENCLAW_PROGRESS_PLOT_INTERVAL_SEC], or is the text interval when
    that is unset or empty.  When either is not an integer, [main] ends
    with the exception of [int], or with a usage error, and [maybe_send]
    is not called. *)
Theorem main_intervals e :
  (forall v, e !! "OPENCLAW_PROGRESS_INTERVAL_SEC" = Some v -> v <> "" ->
             main_interval py_int e = py_int v)
  /\ (~ env_set e "OPENCLAW_PROGRESS_INTERVAL_SEC" ->
      main_interval py_int e = py_int "300")
  /\ (forall v, e !! "OPENCLAW_PROGRESS_PLOT_INTERVAL_SEC" = Some v -> v <> "" ->
                main_plot_interval py_int e = py_int v)
  /\ (~ env_set e "OPENCLAW_PROGRESS_PLOT_INTERVAL_SEC" ->
      main_plot_interval py_int e = main_interval py_int e)
  /\ (forall now argv exc,
        main_interval py_int e = Raised exc
        \/ main_plot_interval py_int e = Raised exc ->
        forall r, main w py_int e now argv <> Completed r).
Proof.
  assert (Hset : forall name d v, e !! name = Some v -> v <> "" ->
            _env e name d = Some v).
  { intros name d v Hv Hne. unfold _env. rewrite Hv.
    apply String.eqb_neq in Hne. rewrite Hne. reflexivity. }
  assert (Hunset : forall name d, ~ env_set e name -> _env e name d = d).
  { intros name d Hn. unfold _env. destruct (e !! name) as [v|] eqn:Ev;
      [|reflexivity].
    destruct (String.eqb v "") eqn:E; [reflexivity|].
    apply String.eqb_neq in E. exfalso. apply Hn. exists v. auto. }
  unfold main_interval, main_plot_interval.
  split; [|split; [|split; [|split]]].
  - intros v Hv Hne. rewrite (Hset _ _ v Hv Hne). reflexivity.
  - intros Hn. rewrite Hunset by assumption. reflexivity.
  - intros v Hv Hne. rewrite (Hset _ _ v Hv Hne). reflexivity.
  - intros Hn. rewrite (Hunset "OPENCLAW_PROGRESS_PLOT_INTERVAL_SEC") by assumption.
    reflexivity.
  - intros now argv exc Hr r Hm.
    assert (Hs : forall message plot,
               main_send w py_int e now message plot <> Completed r).
    { intros message plot. unfold main_send, main_interval, main_plot_interval.
      destruct Hr as [Hr|Hr].
      - rewrite Hr. discriminate.
      - destruct (py_int (str (_env e "OPENCLAW_PROGRESS_INTERVAL_SEC" (Some "300"))));
          [|discriminate].
        rewrite Hr. discriminate. }
    destruct (argv_shapes argv)
      as [H|[(prog & pre & -> & H)|[(prog & pre & p & post & -> & H)
         |(prog & a & args & -> & H)]]].
    + rewrite main_short in Hm by assumption. discriminate.
    + rewrite main_plot_last in Hm by assumption. discriminate.
    + rewrite main_with_plot in Hm by assumption. exact (Hs _ _ Hm).
    + rewrite main_without_plot in Hm by assumption. exact (Hs _ _ Hm).
Qed.

End MainMore.

(** ** Sample instances *)

Lemma selftest_selects_path_witness :
  (_tested Sample.notifier = false
   /\ configured Sample.notifier = true
   /\ _use_http Sample.notifier = false)
  /\ exists n' evs,
       _selftest Sample.world_cli (Sample.notifier, [])
       = (Returned tt, (n', [] ++ evs))
       /\ _tested n' = true
       /\ _use_http n' = negb (probe_ok Sample.world_cli Sample.notifier [])
       /\ probes evs
          = (if _cli_available Sample.notifier
             then [Probe (probe_args Sample.notifier)] else [])
       /\ (if probe_ok Sample.world_cli Sample.notifier []
           then evs = [Probe (probe_args Sample.notifier)]
           else last evs = Some (Diag (http_diag Sample.notifier))).
Proof.
  split; [vm_compute; repeat split|].
  apply selftest_selects_path; vm_compute; reflexivity.
Defined.

Lemma quiet_calls_do_nothing_witness :
  forallb (quiet Sample.notifier_mid)
    [MaybeSend Sample.t100 "epoch 7" None; MaybeSend Sample.t100 "epoch 8" None]
  = true
  /\ perform_all Sample.world_cli
       [MaybeSend Sample.t100 "epoch 7" None; MaybeSend Sample.t100 "epoch 8" None]
       (Sample.notifier_mid, [])
     = (Returned tt, (Sample.notifier_mid, [])).
Proof.
  split; [vm_compute; reflexivity|].
  apply quiet_calls_do_nothing. vm_compute; reflexivity.
Defined.

Lemma text_sent_once_per_window_witness :
  (configured Sample.notifier_mid = true
   /\ elapsed Sample.t400 (last_sent Sample.notifier_mid)
        (interval_sec Sample.notifier_mid) = true
   /\ Forall (fun c : Q * string =>
                (c.1 - Sample.t400
                 < inject_Z (interval_sec Sample.notifier_mid))%Q)
        [(SampleMain.t410, "again")])
  /\ exists r n' evs,
       maybe_send Sample.world_cli Sample.t400 "epoch 9" None
         (Sample.notifier_mid, [])
       = (r, (n', [] ++ evs))
       /\ attempt_all Sample.world_cli
            (MaybeSend Sample.t400 "epoch 9" None
             :: map (fun c : Q * string => MaybeSend c.1 c.2 None)
                  [(SampleMain.t410, "again")])
            (Sample.notifier_mid, [])
          = (n', [] ++ evs)
       /\ dispatches evs = [Dispatch (cmd_text Sample.notifier_mid "epoch 9") None]
       /\ delivers Sample.world_cli [] (cmd_text Sample.notifier_mid "epoch 9")
            None n' r evs
       /\ (length (sends evs) <= 1)%nat
       /\ last_sent n' = Sample.t400.
Proof.
  assert (H : Forall (fun c : Q * string =>
                        (c.1 - Sample.t400
                         < inject_Z (interval_sec Sample.notifier_mid))%Q)
                [(SampleMain.t410, "again")]).
  { constructor; [vm_compute; reflexivity|constructor]. }
  split; [split; [vm_compute; reflexivity|split; [vm_compute; reflexivity|exact H]]|].
  apply text_sent_once_per_window; [vm_compute; reflexivity..|exact H].
Defined.

Lemma zero_interval_never_suppresses_witness :
  (configured Sample.notifier = true
   /\ interval_sec Sample.notifier = 0%Z
   /\ clock_from (last_sent Sample.notifier)
        [MaybeSend Sample.t0 "a" None; SendNow "b" None;
         MaybeSend Sample.t1 "c" Sample.plot])
  /\ exists n' evs,
       attempt_all Sample.world_cli
         [MaybeSend Sample.t0 "a" None; SendNow "b" None;
          MaybeSend Sample.t1 "c" Sample.plot]
         (Sample.notifier, [])
       = (n', [] ++ evs)
       /\ length (dispatches evs)
          = length [MaybeSend Sample.t0 "a" None; SendNow "b" None;
                    MaybeSend Sample.t1 "c" Sample.plot]
       /\ (length (sends evs)
           <= length [MaybeSend Sample.t0 "a" None; SendNow "b" None;
                      MaybeSend Sample.t1 "c" Sample.plot])%nat.
Proof.
  assert (H : clock_from (last_sent Sample.notifier)
                [MaybeSend Sample.t0 "a" None; SendNow "b" None;
                 MaybeSend Sample.t1 "c" Sample.plot]).
  { vm_compute. repeat split; discriminate. }
  split; [split; [vm_compute; reflexivity|split; [vm_compute; reflexivity|exact H]]|].
  apply zero_interval_never_suppresses; [vm_compute; reflexivity..|exact H].
Defined.

Lemma send_now_leaves_throttle_alone_witness :
  configured Sample.notifier_mid = true
  /\ exists n' evs,
       attempt_all Sample.world_cli
         [SendNow "manual" None; MaybeSend Sample.t400 "epoch 9" Sample.plot]
         (Sample.notifier_mid, [])
       = (n', [] ++ evs)
       /\ last_sent n'
          = (if elapsed Sample.t400 (last_sent Sample.notifier_mid)
                  (interval_sec Sample.notifier_mid)
             then Sample.t400 else last_sent Sample.notifier_mid)
       /\ last_plot_sent n'
          = (if truthy Sample.plot
                && elapsed Sample.t400 (last_plot_sent Sample.notifier_mid)
                     (plot_interval_sec Sample.notifier_mid)
             then Sample.t400 else last_plot_sent Sample.notifier_mid)
       /\ length (dispatches evs)
          = (1 + (if elapsed Sample.t400 (last_sent Sample.notifier_mid)
                       (interval_sec Sample.notifier_mid)
                     || truthy Sample.plot
                        && elapsed Sample.t400
                             (last_plot_sent Sample.notifier_mid)
                             (plot_interval_sec Sample.notifier_mid)
                  then 1 else 0))%nat.
Proof.
  split; [vm_compute; reflexivity|].
  apply (send_now_leaves_throttle_alone Sample.world_cli Sample.notifier_mid []
           "manual" None Sample.t400 "epoch 9" Sample.plot).
  vm_compute; reflexivity.
Defined.

Lemma plot_send_does_not_throttle_text_witness :
  (configured Sample.notifier_mid = true
   /\ truthy Sample.plot = true
   /\ elapsed Sample.t100 (last_plot_sent Sample.notifier_mid)
        (plot_interval_sec Sample.notifier_mid) = true
   /\ elapsed Sample.t100 (last_sent Sample.notifier_mid)
        (interval_sec Sample.notifier_mid) = false
   /\ elapsed Sample.t400 (last_sent Sample.notifier_mid)
        (interval_sec Sample.notifier_mid) = true
   /\ (Sample.t400 - Sample.t100
       < inject_Z (plot_interval_sec Sample.notifier_mid))%Q)
  /\ exists n' evs,
       attempt_all Sample.world_cli
         [MaybeSend Sample.t100 "epoch 7" Sample.plot;
          MaybeSend Sample.t400 "epoch 7" Sample.plot]
         (Sample.notifier_mid, [])
       = (n', [] ++ evs)
       /\ dispatches evs
          = [Dispatch (cmd_media Sample.notifier_mid "epoch 7" Sample.plot)
               Sample.plot;
             Dispatch (cmd_text Sample.notifier_mid "epoch 7") None]
       /\ last_sent n' = Sample.t400
       /\ last_plot_sent n' = Sample.t100.
Proof.
  assert (H : (Sample.t400 - Sample.t100
               < inject_Z (plot_interval_sec Sample.notifier_mid))%Q).
  { vm_compute. reflexivity. }
  split; [repeat split; try exact H; vm_compute; reflexivity|].
  apply plot_send_does_not_throttle_text;
    [vm_compute; reflexivity..|exact H].
Defined.

Lemma main_reads_arguments_witness :
  (main_interval SampleMain.py_int SampleMain.environ_intervals = Returned 60%Z
   /\ main_plot_interval SampleMain.py_int SampleMain.environ_intervals
      = Returned 60%Z)
  /\ (forall prog pre p post,
        ~ In "--plot" pre ->
        main Sample.world_cli SampleMain.py_int SampleMain.environ_intervals
          Sample.t0 (prog :: pre ++ "--plot" :: p :: post)
        = Completed
            (maybe_send Sample.world_cli Sample.t0
               (String.concat " " (pre ++ post)) (Some p)
               (__init__ Sample.world_cli SampleMain.environ_intervals 60
                  (Some 60%Z), [])))
  /\ (forall prog a args,
        ~ In "--plot" (a :: args) ->
        main Sample.world_cli SampleMain.py_int SampleMain.environ_intervals
          Sample.t0 (prog :: a :: args)
        = Completed
            (maybe_send Sample.world_cli Sample.t0
               (String.concat " " (a :: args)) None
               (__init__ Sample.world_cli SampleMain.environ_intervals 60
                  (Some 60%Z), []))).
Proof.
  split; [vm_compute; repeat split|].
  apply main_reads_arguments; vm_compute; reflexivity.
Defined.

Lemma main_always_sends_witness :
  (env_configured SampleMain.environ_intervals
   /\ main_interval SampleMain.py_int SampleMain.environ_intervals
      = Returned 60%Z
   /\ (inject_Z 60 <= Sample.t0)%Q
   /\ main Sample.world_cli SampleMain.py_int SampleMain.environ_intervals
        Sample.t0 ["progress_notifier.py"; "epoch"; "7"; "--plot"; "/tmp/p.png"]
      = Completed
          (maybe_send Sample.world_cli Sample.t0 "epoch 7" Sample.plot
             (__init__ Sample.world_cli SampleMain.environ_intervals 60
                (Some 60%Z), [])))
  /\ exists o n' evs,
       maybe_send Sample.world_cli Sample.t0 "epoch 7" Sample.plot
         (__init__ Sample.world_cli SampleMain.environ_intervals 60
            (Some 60%Z), [])
       = (o, (n', evs))
       /\ length (dispatches evs) = 1%nat
       /\ (length (sends evs) <= 1)%nat
       /\ last_sent n' = Sample.t0
       /\ ((forall req, request_error Sample.world_cli req = None) ->
           o = Returned tt)
       /\ (forall exc, o = Raised exc ->
           sends evs = [] /\ delivery_enabled n' = true
           /\ _use_http n' = true).
Proof.
  assert (He : env_configured SampleMain.environ_intervals).
  { split; left; [exists "discord"|exists "channel:123"];
      (split; [vm_compute; reflexivity|discriminate]). }
  assert (Hq : (inject_Z 60 <= Sample.t0)%Q).
  { vm_compute. discriminate. }
  assert (Hm : main Sample.world_cli SampleMain.py_int
                 SampleMain.environ_intervals Sample.t0
                 ["progress_notifier.py"; "epoch"; "7"; "--plot"; "/tmp/p.png"]
               = Completed
                   (maybe_send Sample.world_cli Sample.t0 "epoch 7" Sample.plot
                      (__init__ Sample.world_cli SampleMain.environ_intervals 60
                         (Some 60%Z), []))).
  { vm_compute. reflexivity. }
  assert (Hi : main_interval SampleMain.py_int SampleMain.environ_intervals
               = Returned 60%Z).
  { vm_compute. reflexivity. }
  split; [exact (conj He (conj Hi (conj Hq Hm)))|].
  apply (main_always_sends Sample.world_cli SampleMain.py_int
           SampleMain.environ_intervals Sample.t0
           ["progress_notifier.py"; "epoch"; "7"; "--plot"; "/tmp/p.png"]
           60%Z _ He Hi Hq Hm).
Defined.

(** The command line where the gateway is named without its scheme: the
    run ends with the uncaught [ValueError] of the request constructor. *)
Example main_ends_with_value_error :
  exists st,
    main Sample.world_no_scheme SampleMain.py_int Sample.environ_bad_gateway
      Sample.t0 ["progress_notifier.py"; "epoch"; "7"]
    = Completed (Raised (Exception "ValueError"), st)
    /\ sends st.2 = []
    /\ last_sent st.1 = Sample.t0.
Proof. eexists. vm_compute. repeat split. Qed.
